(** * IAM-20380 gyroscope driver: a shallow embedding of the two drivers

    The repository holds two variants of one CircuitPython driver:
    [iam20380.py] (module [Iam] below) and [sierralobo_iam20380.py] (module
    [SierraLobo]).  Both talk to the chip through the register descriptors
    of [adafruit_register] over an [I2CDevice].

    The embedding is a state-and-exception monad over a [world]: the
    simulated chip (a register file with auto-increment addressing and the
    list of bus transactions issued so far) and the instance attributes of
    the driver object. *)

From Stdlib Require Import ZArith List Bool Lia PrimFloat.
From stdpp Require Import base gmap.
Import ListNotations.

Set Warnings "-inexact-float".
Local Open Scope Z_scope.

(** ** Python values and exceptions *)

(** The exceptions the two files can raise.  [FormatError] is what
    [str.format] (and so an f-string) raises when a format code does not
    apply to the type of its argument: [TypeError] under CPython,
    [ValueError] under MicroPython and CircuitPython.  [SyntaxError] is
    raised when a module is compiled, before any of its code runs. *)
Inductive exn : Type :=
  | RuntimeError
  | ValueError
  | ZeroDivisionError
  | AttributeError
  | IndexError
  | TypeError
  | FormatError
  | SyntaxError.

Inductive result (A : Type) : Type :=
  | Ok (a : A)
  | Raise (e : exn).
Arguments Ok {A} a.
Arguments Raise {A} e.

(** The error kinds of the specification and the exception that plays each
    one in the code: the chip-identity check raises [RuntimeError], the
    setters raise [ValueError].  No exception of the code plays
    [InvalidState] or [TransportError]. *)
Inductive error_kind : Type :=
  | DeviceNotFound
  | InvalidArgument
  | InvalidState
  | TransportError.

Definition kind_of (e : exn) : option error_kind :=
  match e with
  | RuntimeError => Some DeviceNotFound
  | ValueError => Some InvalidArgument
  | _ => None
  end.

(** A Python number: the sensitivity tables mix [int] and [float]. *)
Inductive num : Type :=
  | NInt (z : Z)
  | NFloat (f : float).

(** A value compared or formatted in [__init__]: an [int] or a tuple. *)
Inductive pyval : Type :=
  | PInt (z : Z)
  | PTuple (l : list Z).

(** [int] to [float]: exact below 2^53, where every step is exact. *)
Fixpoint float_of_pos (p : positive) : float :=
  match p with
  | xH => 1%float
  | xO q => PrimFloat.mul 2 (float_of_pos q)
  | xI q => PrimFloat.add (PrimFloat.mul 2 (float_of_pos q)) 1
  end.

Definition float_of_Z (z : Z) : float :=
  match z with
  | Z0 => 0%float
  | Zpos p => float_of_pos p
  | Zneg p => PrimFloat.opp (float_of_pos p)
  end.

Definition float_of_num (n : num) : float :=
  match n with
  | NInt z => float_of_Z z
  | NFloat f => f
  end.

Definition num_is_zero (n : num) : bool :=
  match n with
  | NInt z => z =? 0
  | NFloat f => PrimFloat.eqb f 0%float
  end.

(** [a / b]: true division, a float, or [ZeroDivisionError].  For operands
    below 2^53 the quotient of two ints is the IEEE quotient of their
    conversions. *)
Definition py_truediv (a b : num) : result float :=
  if num_is_zero b then Raise ZeroDivisionError
  else Ok (PrimFloat.div (float_of_num a) (float_of_num b)).

(** [v in l] and [l.index(v)] on a list of ints. *)
Definition py_in (v : Z) (l : list Z) : bool := existsb (Z.eqb v) l.

Fixpoint py_index (v : Z) (l : list Z) : option Z :=
  match l with
  | [] => None
  | x :: t => if x =? v then Some 0 else option_map Z.succ (py_index v t)
  end.

(** [l[i]], negative indices counting from the end. *)
Definition py_getitem {A : Type} (l : list A) (i : Z) : option A :=
  let n := Z.of_nat (length l) in
  if i <? 0
  then (if i + n <? 0 then None else nth_error l (Z.to_nat (i + n)))
  else nth_error l (Z.to_nat i).

(** [a != b]: an int and a tuple are never equal. *)
Definition py_ne (a b : pyval) : bool :=
  match a, b with
  | PInt x, PInt y => negb (x =? y)
  | PTuple x, PTuple y => negb (if decide (x = y) then true else false)
  | _, _ => true
  end.

(** ** The simulated chip and the driver object *)

(** One bus transaction: [WriteThenRead reg n] writes the register address
    and reads [n] bytes; [Write reg data] writes the address, then [data]. *)
Inductive txn : Type :=
  | WriteThenRead (reg : Z) (n : nat)
  | Write (reg : Z) (data : list Z).

Record device : Type := Device {
  regs : gmap Z Z;
  log : list txn
}.

(** The instance attributes a method may find on [self]; [None] is an
    attribute that was never assigned. *)
Record obj : Type := Obj {
  _buffer : option (list Z);
  _range : option Z
}.

Record world : Type := World {
  dev : device;
  self : obj
}.

(** A register read delivers a byte. *)
Definition read_reg (r : gmap Z Z) (a : Z) : Z :=
  Z.land (default 0 (r !! a)) 0xFF.

Fixpoint read_burst (r : gmap Z Z) (a : Z) (n : nat) : list Z :=
  match n with
  | O => []
  | S k => read_reg r a :: read_burst r (a + 1) k
  end.

Fixpoint store_burst (r : gmap Z Z) (a : Z) (data : list Z) : gmap Z Z :=
  match data with
  | [] => r
  | b :: t => store_burst (<[a := b]> r) (a + 1) t
  end.

(** ** The monad *)

Definition M (A : Type) : Type := world -> result A * world.

Definition ret {A : Type} (a : A) : M A := fun w => (Ok a, w).

Definition raise {A : Type} (e : exn) : M A := fun w => (Raise e, w).

Definition bind {A B : Type} (m : M A) (k : A -> M B) : M B :=
  fun w =>
    match m w with
    | (Ok a, w') => k a w'
    | (Raise e, w') => (Raise e, w')
    end.

Notation "x <- m ;; k" := (bind m (fun x => k))
  (at level 100, m at next level, right associativity).
Notation "m ;;; k" := (bind m (fun _ => k))
  (at level 100, right associativity).

Definition lift {A : Type} (r : result A) : M A := fun w => (r, w).

Definition from_option {A : Type} (e : exn) (o : option A) : M A :=
  match o with
  | Some a => ret a
  | None => raise e
  end.

(** ** [I2CDevice] *)

(** [i2c.write_then_readinto(buf, buf, out_end=1, in_start=s)]: the
    register address goes out, [n] bytes come back. *)
Definition write_then_readinto (reg : Z) (n : nat) : M (list Z) :=
  fun w =>
    (Ok (read_burst (regs (dev w)) reg n),
     World (Device (regs (dev w)) (log (dev w) ++ [WriteThenRead reg n]))
           (self w)).

(** [i2c.write(buf)] with [buf = reg :: data]. *)
Definition i2c_write (reg : Z) (data : list Z) : M unit :=
  fun w =>
    (Ok tt,
     World (Device (store_burst (regs (dev w)) reg data)
                   (log (dev w) ++ [Write reg data]))
           (self w)).

(** ** [adafruit_register] descriptors *)

Definition bit_mask (num_bits lowest_bit : Z) : Z :=
  Z.shiftl (Z.shiftl 1 num_bits - 1) lowest_bit.

(** The byte a field write stores: the old byte with the field replaced. *)
Definition written_byte (n l old v : Z) : Z :=
  Z.land (Z.lor (Z.land old (Z.lnot (bit_mask n l))) (Z.shiftl v l)) 0xFF.

(** The byte a one-bit write stores. *)
Definition bit_written (bit old : Z) (value : bool) : Z :=
  Z.land (if value then Z.lor old (Z.shiftl 1 bit)
          else Z.land old (Z.lnot (Z.shiftl 1 bit))) 0xFF.

(** The field of a byte: what a field read returns for it. *)
Definition field_of (n l byte : Z) : Z :=
  Z.shiftr (Z.land byte (bit_mask n l)) l.

(** Modelled from the spec: [adafruit_register.i2c_struct.UnaryStruct] with
    format ["<B"] is not under src/; a read fetches the one byte of the
    register. *)
Definition UnaryStruct_get (reg : Z) : M Z :=
  b <- write_then_readinto reg 1 ;;
  ret (nth 0 b 0).

(** Modelled from the spec: [UnaryStruct.__set__] is not under src/; the
    value is written as the whole byte of the register. *)
Definition UnaryStruct_set (reg : Z) (value : Z) : M unit :=
  i2c_write reg [value].

(** Modelled from the spec: [adafruit_register.i2c_bits.RWBits.__get__] is
    not under src/; the byte is read and the field cut out of it. *)
Definition RWBits_get (num_bits reg lowest_bit : Z) : M Z :=
  b <- write_then_readinto reg 1 ;;
  ret (Z.shiftr (Z.land (nth 0 b 0) (bit_mask num_bits lowest_bit)) lowest_bit).

(** Modelled from the spec: [RWBits.__set__] is not under src/; it is a
    read-modify-write of the containing byte: read the byte, clear the
    field, or the shifted value in, write the byte back. *)
Definition RWBits_set (num_bits reg lowest_bit : Z) (value : Z) : M unit :=
  let value := Z.shiftl value lowest_bit in
  b <- write_then_readinto reg 1 ;;
  let r := Z.land (nth 0 b 0) (Z.lnot (bit_mask num_bits lowest_bit)) in
  let r := Z.lor r value in
  i2c_write reg [Z.land r 0xFF].

(** Modelled from the spec: [adafruit_register.i2c_bit.RWBit.__get__] is
    not under src/. *)
Definition RWBit_get (reg bit : Z) : M bool :=
  b <- write_then_readinto reg 1 ;;
  ret (negb (Z.land (nth 0 b 0) (Z.shiftl 1 bit) =? 0)).

(** Modelled from the spec: [RWBit.__set__] is not under src/; a
    read-modify-write of the one bit. *)
Definition RWBit_set (reg bit : Z) (value : bool) : M unit :=
  b <- write_then_readinto reg 1 ;;
  let r := nth 0 b 0 in
  let r := if value then Z.lor r (Z.shiftl 1 bit)
           else Z.land r (Z.lnot (Z.shiftl 1 bit)) in
  i2c_write reg [Z.land r 0xFF].

(** ** Attributes of [self] *)

Definition get_buffer : M (list Z) :=
  fun w => match _buffer (self w) with
           | Some b => (Ok b, w)
           | None => (Raise AttributeError, w)
           end.

Definition set_buffer (b : list Z) : M unit :=
  fun w => (Ok tt, World (dev w) (Obj (Some b) (_range (self w)))).

Definition get_range : M Z :=
  fun w => match _range (self w) with
           | Some r => (Ok r, w)
           | None => (Raise AttributeError, w)
           end.

Definition set_range (r : Z) : M unit :=
  fun w => (Ok tt, World (dev w) (Obj (_buffer (self w)) (Some r))).

(** [self._buffer[0] = reg], then
    [i2c.write_then_readinto(self._buffer, self._buffer, out_end=1)]: the
    read fills the whole buffer, so it is as long as the buffer. *)
Definition burst_into_buffer (reg : Z) : M unit :=
  b <- get_buffer ;;
  match b with
  | [] => raise IndexError
  | _ :: _ =>
      d <- write_then_readinto reg (length b) ;;
      set_buffer d
  end.

(** [self._buffer[i]] *)
Definition buffer_at (i : Z) : M Z :=
  b <- get_buffer ;;
  from_option IndexError (py_getitem b i).

(** [hi << 8 | lo] *)
Definition be16 (hi lo : Z) : Z := Z.lor (Z.shiftl hi 8) lo.

(** [time.sleep]: no effect on the world. *)
Definition time_sleep : M unit := ret tt.

(** ** List displays, token by token *)

(** The tokens between the brackets of a list display whose items are
    literals. *)
Inductive token : Type :=
  | TString
  | TNumber (n : num)
  | TComma.

(** An item of such a list: a string or a number. *)
Inductive entry : Type :=
  | EString
  | ENumber (n : num).

(** The grammar of the display: items separated by commas, a trailing
    comma allowed.  String literals in a row are one string; a number
    after a string or after a number, with no comma between, is no
    expression.  [prev] is the item read since the last comma. *)
Fixpoint parse_display (ts : list token) (prev : option entry)
  : result (list entry) :=
  match ts with
  | [] => Ok (match prev with Some e => [e] | None => [] end)
  | TComma :: rest =>
      match prev with
      | None => Raise SyntaxError
      | Some e =>
          match parse_display rest None with
          | Ok l => Ok (e :: l)
          | Raise x => Raise x
          end
      end
  | TString :: rest =>
      match prev with
      | None | Some EString => parse_display rest (Some EString)
      | Some (ENumber _) => Raise SyntaxError
      end
  | TNumber n :: rest =>
      match prev with
      | None => parse_display rest (Some (ENumber n))
      | Some _ => Raise SyntaxError
      end
  end.

(** [v == e] for an int [v] and an item [e]: an int equals no string. *)
Definition entry_eqb (v : Z) (e : entry) : bool :=
  match e with
  | EString => false
  | ENumber (NInt z) => v =? z
  | ENumber (NFloat f) => PrimFloat.eqb (float_of_Z v) f
  end.

(** [v in l] and [l.index(v)] on a list of items. *)
Definition entry_in (v : Z) (l : list entry) : bool := existsb (entry_eqb v) l.

Fixpoint entry_index (v : Z) (l : list entry) : option Z :=
  match l with
  | [] => None
  | e :: t => if entry_eqb v e then Some 0
              else option_map Z.succ (entry_index v t)
  end.

(** The numbers among the tokens, floats left out. *)
Fixpoint ints_of (ts : list token) : list Z :=
  match ts with
  | [] => []
  | TNumber (NInt z) :: rest => z :: ints_of rest
  | _ :: rest => ints_of rest
  end.

(** ** Register addresses, shared by both files *)

Definition _IAM20380_SMPLRT_DIV_REG : Z := 0x19.
Definition _IAM20380_CONFIG_REG : Z := 0x1A.
Definition _IAM20380_GYRO_CONFIG_REG : Z := 0x1B.
Definition _IAM20380_LP_MODE_CFG_REG : Z := 0x1E.
Definition _IAM20380_TEMP_OUT_H_REG : Z := 0x41.
Definition _IAM20380_GYRO_XOUT_H_REG : Z := 0x43.
Definition _IAM20380_PWR_MGMT_1_REG : Z := 0x6B.
Definition _IAM20380_WHO_AM_I_REG : Z := 0x75.

(** ** [iam20380.py] *)

Module Iam.

Definition _IAM20380_DEFAULT_ADDRESS : Z := 0x00.
Definition _IAM20380_WHO_AM_I : Z := 0xB5.

(** The three tables.  In the source each literal opens with a string
    ("per configured value, determined by FS_SEL value") that no comma
    separates from the first number: as written the file does not compile
    (module [IamLiteral] below keeps the tokens).  Here the tables are the
    numbers of the literals, entry [i] for register code [i]: the reading
    in which the string is documentation.  It serves the functions whose
    behaviour does not depend on how the literal is mended. *)
Definition _IAM20380_sens : list num :=
  [NInt 131; NFloat 65.5; NFloat 32.8; NFloat 16.4].

Definition _IAM20380_fs : list Z := [250; 500; 1000; 2000].

Definition _IAM20380_avgs : list Z := [1; 2; 4; 8; 16; 32; 64; 128].

(** The class-level descriptors. *)
Definition _chip_id : M Z := UnaryStruct_get _IAM20380_WHO_AM_I_REG.
Definition _reset_set : bool -> M unit := RWBit_set _IAM20380_PWR_MGMT_1_REG 7.
Definition _fs_sel : M Z := RWBits_get 2 _IAM20380_GYRO_CONFIG_REG 3.
Definition _fs_sel_set : Z -> M unit := RWBits_set 2 _IAM20380_GYRO_CONFIG_REG 3.
Definition _pwr_mgmt_1_set : Z -> M unit := UnaryStruct_set _IAM20380_PWR_MGMT_1_REG.
Definition _gavg_cfg : M Z := RWBits_get 3 _IAM20380_LP_MODE_CFG_REG 4.
Definition _gavg_cfg_set : Z -> M unit := RWBits_set 3 _IAM20380_LP_MODE_CFG_REG 4.
Definition _fchoice_b_set : Z -> M unit := RWBits_set 2 _IAM20380_GYRO_CONFIG_REG 0.
Definition _dlpf_cfg : M Z := RWBits_get 3 _IAM20380_CONFIG_REG 0.
Definition _dlpf_cfg_set : Z -> M unit := RWBits_set 3 _IAM20380_CONFIG_REG 0.
Definition _smplrt_div : M Z := UnaryStruct_get _IAM20380_SMPLRT_DIV_REG.

(** [fs] getter *)
Definition fs : M Z :=
  temp <- _fs_sel ;;
  from_option IndexError (py_getitem _IAM20380_fs temp).

(** [fs] setter *)
Definition fs_setter (value : Z) : M unit :=
  if negb (py_in value _IAM20380_fs) then raise ValueError
  else
    i <- from_option ValueError (py_index value _IAM20380_fs) ;;
    _fs_sel_set i.

(** [sens] getter *)
Definition sens : M num :=
  temp <- _fs_sel ;;
  from_option IndexError (py_getitem _IAM20380_sens temp).

(** [dlpf] getter *)
Definition dlpf : M Z := _dlpf_cfg.

(** [dlpf] setter.  [value <= 1 | 6 <= value] is the chained comparison
    [value <= (1 | 6) <= value]: the bitwise or binds tighter. *)
Definition dlpf_setter (value : Z) : M unit :=
  if (value <=? Z.lor 1 6) && (Z.lor 1 6 <=? value) then raise ValueError
  else _dlpf_cfg_set value.

(** [smplrt_div] getter *)
Definition smplrt_div : M Z := _smplrt_div.

(** [smplrt_div] setter: the whole body is the check. *)
Definition smplrt_div_setter (value : Z) : M unit :=
  if (0 <=? value) && (value <=? 255) then raise ValueError
  else ret tt.

(** [avgs] getter *)
Definition avgs : M Z :=
  temp <- _gavg_cfg ;;
  from_option IndexError (py_getitem _IAM20380_avgs temp).

(** [avgs] setter *)
Definition avgs_setter (value : Z) : M unit :=
  if negb (py_in value _IAM20380_avgs) then raise ValueError
  else
    i <- from_option ValueError (py_index value _IAM20380_avgs) ;;
    _gavg_cfg_set i.

(** [odr] getter *)
Definition odr : M float :=
  d <- _smplrt_div ;;
  lift (py_truediv (NInt 1000) (NInt d)).

Definition reset : M unit :=
  _reset_set true ;;;
  time_sleep ;;;
  _pwr_mgmt_1_set 0x01 ;;;
  _fchoice_b_set 0x00 ;;;
  fs_setter 250 ;;;
  dlpf_setter 6 ;;;
  smplrt_div_setter 255 ;;;
  avgs_setter 128.

(** [I2CDevice(i2c_bus, addr, probe=False)] issues no transaction. *)
Definition __init__ : M unit :=
  id <- _chip_id ;;
  if negb (id =? _IAM20380_WHO_AM_I) then raise RuntimeError
  else
    set_buffer (repeat 0 6) ;;;
    reset.

(** [temperature] getter *)
Definition temperature : M float :=
  burst_into_buffer _IAM20380_TEMP_OUT_H_REG ;;;
  hi <- buffer_at 0 ;;
  lo <- buffer_at 1 ;;
  let temp := be16 hi lo in
  temp <- lift (py_truediv (NInt temp) (NFloat 326.8)) ;;
  ret (PrimFloat.add temp 25).

(** The body of the [rotation] getter up to its last statement: the three
    locals [x], [y], [z].  [self.sens] is read once per axis. *)
Definition rotation_locals : M (float * float * float) :=
  burst_into_buffer _IAM20380_GYRO_XOUT_H_REG ;;;
  b0 <- buffer_at 0 ;; b1 <- buffer_at 1 ;;
  let x := be16 b0 b1 in
  b2 <- buffer_at 2 ;; b3 <- buffer_at 3 ;;
  let y := be16 b2 b3 in
  b4 <- buffer_at 4 ;; b5 <- buffer_at 5 ;;
  let z := be16 b4 b5 in
  let x := x - Z.shiftl 1 15 in
  let y := y - Z.shiftl 1 15 in
  let z := z - Z.shiftl 1 15 in
  s <- sens ;; x <- lift (py_truediv (NInt x) s) ;;
  s <- sens ;; y <- lift (py_truediv (NInt y) s) ;;
  s <- sens ;; z <- lift (py_truediv (NInt z) s) ;;
  ret (x, y, z).

(** [rotation] getter: the body has no [return], the result is [None]. *)
Definition rotation : M (option (float * float * float)) :=
  rotation_locals ;;;
  ret None.

End Iam.

(** ** The table literals of [iam20380.py] as written *)

Module IamLiteral.

(** Lines 31-39, 41-49 and 51-63, token by token: the string, then the
    numbers with their commas. *)
Definition _IAM20380_sens_tokens : list token :=
  [TString; TNumber (NInt 131); TComma; TNumber (NFloat 65.5); TComma;
   TNumber (NFloat 32.8); TComma; TNumber (NFloat 16.4)].

Definition _IAM20380_fs_tokens : list token :=
  [TString; TNumber (NInt 250); TComma; TNumber (NInt 500); TComma;
   TNumber (NInt 1000); TComma; TNumber (NInt 2000)].

Definition _IAM20380_avgs_tokens : list token :=
  [TString; TNumber (NInt 1); TComma; TNumber (NInt 2); TComma;
   TNumber (NInt 4); TComma; TNumber (NInt 8); TComma; TNumber (NInt 16);
   TComma; TNumber (NInt 32); TComma; TNumber (NInt 64); TComma;
   TNumber (NInt 128)].

(** Importing the module compiles the three literals first. *)
Definition import : result unit :=
  match parse_display _IAM20380_sens_tokens None,
        parse_display _IAM20380_fs_tokens None,
        parse_display _IAM20380_avgs_tokens None with
  | Ok _, Ok _, Ok _ => Ok tt
  | Raise e, _, _ => Raise e
  | _, Raise e, _ => Raise e
  | _, _, Raise e => Raise e
  end.

(** The literal with the one missing token supplied: a comma after the
    string.  Every token of the source is kept, and the string becomes
    item 0. *)
Definition with_comma (ts : list token) : list token :=
  match ts with
  | TString :: rest => TString :: TComma :: rest
  | _ => ts
  end.

Definition items (ts : list token) : list entry :=
  match parse_display (with_comma ts) None with
  | Ok l => l
  | Raise _ => []
  end.

Definition _IAM20380_fs : list entry := items _IAM20380_fs_tokens.
Definition _IAM20380_avgs : list entry := items _IAM20380_avgs_tokens.

(** The four accessors of lines 127-137 and 167-177 over these tables. *)
Definition fs : M entry :=
  temp <- Iam._fs_sel ;;
  from_option IndexError (py_getitem _IAM20380_fs temp).

Definition fs_setter (value : Z) : M unit :=
  if negb (entry_in value _IAM20380_fs) then raise ValueError
  else
    i <- from_option ValueError (entry_index value _IAM20380_fs) ;;
    Iam._fs_sel_set i.

Definition avgs : M entry :=
  temp <- Iam._gavg_cfg ;;
  from_option IndexError (py_getitem _IAM20380_avgs temp).

Definition avgs_setter (value : Z) : M unit :=
  if negb (entry_in value _IAM20380_avgs) then raise ValueError
  else
    i <- from_option ValueError (entry_index value _IAM20380_avgs) ;;
    Iam._gavg_cfg_set i.

End IamLiteral.

(** ** [sierralobo_iam20380.py] *)

Module SierraLobo.

Definition _DEFAULT_ADDR : Z := 0x68.

Definition _WHO_AM_I : pyval := PTuple [0xB5; 0xFD].

Definition _IAM20380_TEMP_OFFS : Z := 0x0.

Definition _IAM20380_SENS_250DPS : num := NInt 313.
Definition _IAM20380_SENS_500DPS : num := NFloat 65.5.
Definition _IAM20380_SENS_1000DPS : num := NFloat 32.8.
Definition _IAM20380_SENS_2000DPS : num := NFloat 16.4.

Definition _IAM20380_RANGE_250DPS : Z := 0x0.
Definition _IAM20380_RANGE_500DPS : Z := 0x1.
Definition _IAM20380_RANGE_1000DPS : Z := 0x2.
Definition _IAM20380_RANGE_2000DPS : Z := 0x3.

(** The class-level descriptors. *)
Definition _chip_id : M Z := UnaryStruct_get _IAM20380_WHO_AM_I_REG.
Definition _rst_bit_set : bool -> M unit := RWBit_set _IAM20380_PWR_MGMT_1_REG 7.
Definition _fs_sel : M Z := RWBits_get 2 _IAM20380_GYRO_CONFIG_REG 3.
Definition _gavg_cfg : M Z := RWBits_get 3 _IAM20380_LP_MODE_CFG_REG 4.
Definition _gavg_cfg_set : Z -> M unit := RWBits_set 3 _IAM20380_LP_MODE_CFG_REG 4.
Definition _fchoice_b_set : Z -> M unit := RWBits_set 2 _IAM20380_GYRO_CONFIG_REG 0.
Definition _smplrt_div : M Z := UnaryStruct_get _IAM20380_SMPLRT_DIV_REG.
Definition _smplrt_div_set : Z -> M unit := UnaryStruct_set _IAM20380_SMPLRT_DIV_REG.
Definition _gyro_cycle : M bool := RWBit_get _IAM20380_LP_MODE_CFG_REG 7.
Definition _gyro_cycle_set : bool -> M unit := RWBit_set _IAM20380_LP_MODE_CFG_REG 7.
Definition _sleep : M bool := RWBit_get _IAM20380_PWR_MGMT_1_REG 6.
Definition _sleep_set : bool -> M unit := RWBit_set _IAM20380_PWR_MGMT_1_REG 6.

(** [self._range] is a plain attribute, not a register. *)
Definition reset : M unit :=
  _rst_bit_set true ;;;
  set_range _IAM20380_RANGE_250DPS ;;;
  _smplrt_div_set 255 ;;;
  _fchoice_b_set 0 ;;;
  _gavg_cfg_set 3 ;;;
  _gyro_cycle_set true.

(** [{v:#x}] inside an f-string: hexadecimal for an int, no such format
    for a tuple. *)
Definition format_hex (v : pyval) : M unit :=
  match v with
  | PInt _ => ret tt
  | PTuple _ => raise FormatError
  end.

(** [I2CDevice(i2c_bus, addr)] probes the address; the chip is taken to
    answer.  The argument of [raise] is evaluated before anything is
    raised: the three fields of the message are formatted in order, the
    second one reading the chip identity again. *)
Definition __init__ (addr : Z) : M unit :=
  reset ;;;
  id <- _chip_id ;;
  if py_ne (PInt id) _WHO_AM_I then
    format_hex (PInt addr) ;;;
    id' <- _chip_id ;;
    format_hex (PInt id') ;;;
    format_hex _WHO_AM_I ;;;
    raise RuntimeError
  else ret tt.

(** [temperature] getter *)
Definition temperature : M float :=
  burst_into_buffer _IAM20380_TEMP_OUT_H_REG ;;;
  hi <- buffer_at 0 ;;
  lo <- buffer_at 1 ;;
  let temp := be16 hi lo in
  let temp := temp - _IAM20380_TEMP_OFFS in
  temp <- lift (py_truediv (NInt temp) (NFloat 326.8)) ;;
  ret (PrimFloat.add temp 25).

(** [raw] getter *)
Definition raw : M (Z * Z * Z) :=
  burst_into_buffer _IAM20380_GYRO_XOUT_H_REG ;;;
  b0 <- buffer_at 0 ;; b1 <- buffer_at 1 ;;
  let x := be16 b0 b1 in
  b2 <- buffer_at 2 ;; b3 <- buffer_at 3 ;;
  let y := be16 b2 b3 in
  b4 <- buffer_at 4 ;; b5 <- buffer_at 5 ;;
  let z := be16 b4 b5 in
  ret (x, y, z).

(** [sensitivity] getter; [None] when no branch returns. *)
Definition sensitivity : M (option num) :=
  r <- get_range ;;
  if r =? _IAM20380_RANGE_250DPS then ret (Some _IAM20380_SENS_250DPS)
  else if r =? _IAM20380_RANGE_500DPS then ret (Some _IAM20380_SENS_500DPS)
  else if r =? _IAM20380_RANGE_1000DPS then ret (Some _IAM20380_SENS_1000DPS)
  else if r =? _IAM20380_RANGE_2000DPS then ret (Some _IAM20380_SENS_2000DPS)
  else ret None.

(** The sign step that [rotation] applies to each axis:
    [if (x & 0x8000) == 0x8000: x -= 0xFFFF]. *)
Definition signed16 (x : Z) : Z :=
  if Z.land x 0x8000 =? 0x8000 then x - 0xFFFF else x.

(** [rotation] getter *)
Definition rotation : M (float * float * float) :=
  r <- raw ;;
  let '(x, y, z) := r in
  let x := signed16 x in
  let y := signed16 y in
  let z := signed16 z in
  s <- sensitivity ;;
  s <- from_option TypeError s ;;
  x <- lift (py_truediv (NInt x) s) ;;
  y <- lift (py_truediv (NInt y) s) ;;
  z <- lift (py_truediv (NInt z) s) ;;
  ret (x, y, z).

(** [sleep] getter and setter *)
Definition sleep : M bool := _sleep.
Definition sleep_setter (val : bool) : M unit := _sleep_set val.

End SierraLobo.

(** ** Worlds to run the drivers on *)

(** A chip whose registers hold the given bytes, and no traffic yet. *)
Definition chip (l : list (Z * Z)) : device := Device (list_to_map l) [].

(** An object on which no attribute has been assigned yet. *)
Definition fresh : obj := Obj None None.

(** An object whose [__init__] got as far as [self._buffer = bytearray(6)]. *)
Definition with_buffer : obj := Obj (Some (repeat 0 6)) None.

(** Worlds used as concrete inputs. *)
Definition w_b5 : world := World (chip [(0x75, 0xB5)]) fresh.
Definition w_fd : world := World (chip [(0x75, 0xFD)]) fresh.
Definition w_00 : world := World (chip [(0x75, 0x00)]) fresh.

(** Temperature bytes 0x12 0x34, then the gyro burst
    [0x80,0x00, 0x00,0x64, 0x7F,0xFF]; divider 0; cycle bit set. *)
Definition w_burst : world :=
  World (chip [(0x41, 0x12); (0x42, 0x34);
               (0x43, 0x80); (0x44, 0x00); (0x45, 0x00); (0x46, 0x64);
               (0x47, 0x7F); (0x48, 0xFF); (0x19, 0x00); (0x1E, 0x80);
               (0x1B, 0x07)])
        with_buffer.

(** The same chip seen by an object that also has [_range] bound to the
    250 dps code, as [SierraLobo.reset] leaves it. *)
Definition w_burst_range : world :=
  World (dev w_burst) (Obj (Some (repeat 0 6)) (Some 0)).

(** The burst [0x00,0x64, 0x00,0xC8, 0xFF,0x38]. *)
Definition w_triple : world :=
  World (chip [(0x43, 0x00); (0x44, 0x64); (0x45, 0x00); (0x46, 0xC8);
               (0x47, 0xFF); (0x48, 0x38)])
        with_buffer.

(** A check of a predicate on every [k]-bit extension of [base]: on all
    of 0 .. 2^k - 1 when [base] is 0. *)
Fixpoint forall_words (k : nat) (base : Z) (P : Z -> bool) : bool :=
  match k with
  | O => P base
  | S k' => forall_words k' (2 * base) P && forall_words k' (2 * base + 1) P
  end.

(** * Properties *)

(** ** The model on small inputs *)

Example raw_triple : fst (SierraLobo.raw w_triple) = Ok (100, 200, 65336).
Proof. reflexivity. Qed.

Example dlpf_rejects_only_seven :
  fst (Iam.dlpf_setter 7 w_triple) = Raise ValueError
  /\ fst (Iam.dlpf_setter 6 w_triple) = Ok tt
  /\ fst (Iam.dlpf_setter 0 w_triple) = Ok tt.
Proof. repeat split. Qed.

Example int_over_int_quotient :
  py_truediv (NInt 100) (NInt 131) = Ok 0.76335877862595425%float.
Proof. reflexivity. Qed.

(** ** Bits *)

Section Bits.

Lemma shiftl_1_ones (n : Z) : 0 <= n -> Z.shiftl 1 n - 1 = Z.ones n.
Proof.
  intros Hn. rewrite Z.ones_equiv, Z.shiftl_1_l. lia.
Qed.

Lemma bit_mask_testbit (n l i : Z) :
  0 <= n -> 0 <= l -> 0 <= i ->
  Z.testbit (bit_mask n l) i = (l <=? i) && (i <? l + n).
Proof.
  intros Hn Hl Hi. unfold bit_mask.
  rewrite shiftl_1_ones by assumption.
  rewrite Z.shiftl_spec by assumption.
  destruct (Z.leb_spec l i) as [Hli | Hli]; simpl.
  - destruct (Z.ltb_spec i (l + n)) as [Hin | Hin].
    + apply Z.ones_spec_low. lia.
    + apply Z.ones_spec_high. lia.
  - apply Z.testbit_neg_r. lia.
Qed.

Lemma byte_testbit (x i : Z) :
  0 <= i -> Z.testbit (Z.land x 0xFF) i = Z.testbit x i && (i <? 8).
Proof.
  intros Hi. rewrite Z.land_spec. f_equal.
  change 0xFF with (Z.ones 8).
  destruct (Z.ltb_spec i 8) as [H | H].
  - apply Z.ones_spec_low. lia.
  - apply Z.ones_spec_high. lia.
Qed.

Lemma byte_idem (x : Z) : Z.land (Z.land x 0xFF) 0xFF = Z.land x 0xFF.
Proof. rewrite <- Z.land_assoc. reflexivity. Qed.

Lemma byte_range (x : Z) : 0 <= Z.land x 0xFF < 256.
Proof.
  change 0xFF with (Z.ones 8). rewrite Z.land_ones by lia.
  apply Z.mod_pos_bound. reflexivity.
Qed.

(** The byte [RWBits_set] writes back, read as a field again. *)
Lemma field_of_written (n l old v : Z) :
  0 <= n -> 0 <= l -> l + n <= 8 -> 0 <= v < 2 ^ n ->
  Z.shiftr
    (Z.land
       (Z.land (Z.land (Z.lor (Z.land old (Z.lnot (bit_mask n l)))
                              (Z.shiftl v l)) 0xFF) 0xFF)
       (bit_mask n l)) l = v.
Proof.
  intros Hn Hl Hw Hv. apply Z.bits_inj'. intros i Hi.
  rewrite Z.shiftr_spec by assumption.
  rewrite Z.land_spec, byte_idem, byte_testbit by lia.
  rewrite Z.lor_spec, Z.land_spec, Z.lnot_spec by lia.
  rewrite (bit_mask_testbit n l (i + l)) by lia.
  rewrite Z.shiftl_spec by lia.
  replace (i + l - l) with i by lia.
  destruct (Z.ltb_spec i n) as [Hin | Hin].
  - replace (l <=? i + l) with true by (symmetry; apply Z.leb_le; lia).
    replace (i + l <? l + n) with true by (symmetry; apply Z.ltb_lt; lia).
    replace (i + l <? 8) with true by (symmetry; apply Z.ltb_lt; lia).
    simpl. rewrite andb_false_r. simpl. rewrite !andb_true_r. reflexivity.
  - replace (i + l <? l + n) with false by (symmetry; apply Z.ltb_ge; lia).
    rewrite !andb_false_r.
    destruct (Z.eq_dec v 0) as [-> | Hv0].
    + symmetry. apply Z.testbit_0_l.
    + symmetry. apply Z.bits_above_log2; [lia |].
      apply Z.lt_le_trans with n; [| lia].
      apply Z.log2_lt_pow2; lia.
Qed.

(** The bits of the byte outside the field keep their value. *)
Lemma written_keeps_bit (n l old v i : Z) :
  0 <= n -> 0 <= l -> 0 <= v < 2 ^ n ->
  0 <= i < 8 -> (i < l \/ l + n <= i) ->
  Z.testbit (Z.land (Z.lor (Z.land old (Z.lnot (bit_mask n l)))
                           (Z.shiftl v l)) 0xFF) i
  = Z.testbit old i.
Proof.
  intros Hn Hl Hv Hi Hout.
  rewrite byte_testbit by lia.
  rewrite Z.lor_spec, Z.land_spec, Z.lnot_spec by lia.
  rewrite bit_mask_testbit by lia.
  replace (i <? 8) with true by (symmetry; apply Z.ltb_lt; lia).
  rewrite andb_true_r.
  assert (Hm : (l <=? i) && (i <? l + n) = false).
  { destruct Hout as [H | H].
    - replace (l <=? i) with false by (symmetry; apply Z.leb_gt; lia).
      reflexivity.
    - replace (i <? l + n) with false by (symmetry; apply Z.ltb_ge; lia).
      apply andb_false_r. }
  rewrite Hm. simpl. rewrite andb_true_r.
  assert (Hs : Z.testbit (Z.shiftl v l) i = false).
  { destruct Hout as [H | H].
    - rewrite Z.shiftl_spec by lia. apply Z.testbit_neg_r. lia.
    - rewrite Z.shiftl_spec by lia.
      destruct (Z.eq_dec v 0) as [-> | Hv0].
      + apply Z.testbit_0_l.
      + apply Z.bits_above_log2; [lia |].
        apply Z.lt_le_trans with n; [| lia].
        apply Z.log2_lt_pow2; lia. }
  rewrite Hs. apply orb_false_r.
Qed.

(** Two bytes make an unsigned 16-bit value. *)
Lemma be16_bytes (hi lo : Z) :
  0 <= hi < 256 -> 0 <= lo < 256 ->
  be16 hi lo = 256 * hi + lo /\ 0 <= be16 hi lo < 65536.
Proof.
  intros Hhi Hlo. unfold be16.
  assert (Hd : Z.land (Z.shiftl hi 8) lo = 0).
  { apply Z.bits_inj'. intros i Hi.
    rewrite Z.land_spec, Z.bits_0.
    destruct (Z.ltb_spec i 8) as [H | H].
    - rewrite Z.shiftl_spec_low by lia. reflexivity.
    - destruct (Z.eq_dec lo 0) as [-> | Hlo0].
      + rewrite Z.testbit_0_l. apply andb_false_r.
      + rewrite (Z.bits_above_log2 lo i); [apply andb_false_r | lia |].
        apply Z.lt_le_trans with 8; [| lia].
        apply Z.log2_lt_pow2; lia. }
  rewrite <- Z.lxor_lor by assumption.
  rewrite <- Z.add_nocarry_lxor by assumption.
  rewrite Z.shiftl_mul_pow2 by lia.
  change (2 ^ 8) with 256. lia.
Qed.

End Bits.

(** ** Running the descriptors *)

Section Descriptors.

Lemma read_reg_insert_eq (r : gmap Z Z) (a b : Z) :
  read_reg (<[a := b]> r) a = Z.land b 0xFF.
Proof. unfold read_reg. rewrite lookup_insert_eq. reflexivity. Qed.

Lemma read_reg_insert_ne (r : gmap Z Z) (a a' b : Z) :
  a <> a' -> read_reg (<[a := b]> r) a' = read_reg r a'.
Proof. intros H. unfold read_reg. rewrite lookup_insert_ne by assumption. reflexivity. Qed.

Lemma RWBits_set_run (n reg l v : Z) (w : world) :
  RWBits_set n reg l v w =
  (Ok tt,
   World (Device (<[reg := written_byte n l (read_reg (regs (dev w)) reg) v]>
                    (regs (dev w)))
                 ((log (dev w) ++ [WriteThenRead reg 1])
                  ++ [Write reg [written_byte n l (read_reg (regs (dev w)) reg) v]]))
         (self w)).
Proof. reflexivity. Qed.

Lemma RWBits_get_run (n reg l : Z) (w : world) :
  RWBits_get n reg l w =
  (Ok (Z.shiftr (Z.land (read_reg (regs (dev w)) reg) (bit_mask n l)) l),
   World (Device (regs (dev w)) (log (dev w) ++ [WriteThenRead reg 1]))
         (self w)).
Proof. reflexivity. Qed.

Lemma RWBit_set_run (reg bit : Z) (v : bool) (w : world) :
  exists b,
    RWBit_set reg bit v w =
    (Ok tt,
     World (Device (<[reg := b]> (regs (dev w)))
                   ((log (dev w) ++ [WriteThenRead reg 1]) ++ [Write reg [b]]))
           (self w)).
Proof. unfold RWBit_set, bind. simpl. eexists. reflexivity. Qed.

Lemma UnaryStruct_get_run (reg : Z) (w : world) :
  UnaryStruct_get reg w =
  (Ok (read_reg (regs (dev w)) reg),
   World (Device (regs (dev w)) (log (dev w) ++ [WriteThenRead reg 1]))
         (self w)).
Proof. reflexivity. Qed.

Lemma UnaryStruct_set_run (reg v : Z) (w : world) :
  UnaryStruct_set reg v w =
  (Ok tt,
   World (Device (<[reg := v]> (regs (dev w)))
                 (log (dev w) ++ [Write reg [v]]))
         (self w)).
Proof. reflexivity. Qed.

(** A field written and read back. *)
Lemma RWBits_roundtrip (n reg l v : Z) (w : world) :
  0 <= n -> 0 <= l -> l + n <= 8 -> 0 <= v < 2 ^ n ->
  fst (RWBits_get n reg l (snd (RWBits_set n reg l v w))) = Ok v.
Proof.
  intros Hn Hl Hw Hv.
  rewrite RWBits_set_run, RWBits_get_run. simpl.
  rewrite read_reg_insert_eq. unfold written_byte.
  f_equal. apply field_of_written; assumption.
Qed.

End Descriptors.

(** ** Running the monad *)

Lemma bind_ok {A B : Type} (m : M A) (k : A -> M B) (w w' : world) (a : A) :
  m w = (Ok a, w') -> bind m k w = k a w'.
Proof. intros H. unfold bind. rewrite H. reflexivity. Qed.

Lemma bind_raise {A B : Type} (m : M A) (k : A -> M B) (w w' : world) (e : exn) :
  m w = (Raise e, w') -> bind m k w = (Raise e, w').
Proof. intros H. unfold bind. rewrite H. reflexivity. Qed.

Lemma fst_bind {A B : Type} (m : M A) (k : A -> M B) (w : world) :
  fst (bind m k w) =
  match fst (m w) with
  | Ok a => fst (k a (snd (m w)))
  | Raise e => Raise e
  end.
Proof. unfold bind. destruct (m w) as [[a | e] w']; reflexivity. Qed.

(** ** The table literals and the two round trips *)

(** A field write of any value reads back as the value modulo 2^n. *)
Lemma field_reads_low_bits (n l old v : Z) :
  0 <= n -> 0 <= l -> l + n <= 8 ->
  Z.shiftr (Z.land (Z.land (written_byte n l old v) 0xFF) (bit_mask n l)) l
  = Z.land v (Z.ones n).
Proof.
  intros Hn Hl Hw. unfold written_byte. rewrite byte_idem.
  apply Z.bits_inj'. intros i Hi.
  rewrite Z.shiftr_spec, (Z.land_spec _ (bit_mask n l)) by assumption.
  rewrite (Z.land_spec v), byte_testbit by lia.
  rewrite Z.lor_spec, Z.land_spec, Z.lnot_spec, Z.shiftl_spec by lia.
  rewrite !bit_mask_testbit by lia.
  replace (i + l - l) with i by lia.
  replace (l <=? i + l) with true by (symmetry; apply Z.leb_le; lia).
  destruct (Z.ltb_spec i n) as [Hin | Hin].
  - replace (i + l <? l + n) with true by (symmetry; apply Z.ltb_lt; lia).
    replace (i + l <? 8) with true by (symmetry; apply Z.ltb_lt; lia).
    rewrite Z.ones_spec_low by lia. simpl.
    rewrite andb_false_r, !andb_true_r. reflexivity.
  - replace (i + l <? l + n) with false by (symmetry; apply Z.ltb_ge; lia).
    rewrite Z.ones_spec_high by lia. rewrite !andb_false_r. reflexivity.
Qed.

(** A bit of the shifted value lands in the byte, inside the field or not. *)
Lemma written_byte_spill (n l old v i : Z) :
  0 <= l -> 0 <= i < 8 ->
  Z.testbit (Z.shiftl v l) i = true ->
  Z.testbit (written_byte n l old v) i = true.
Proof.
  intros Hl Hi Hv. unfold written_byte.
  rewrite byte_testbit, Z.lor_spec, Hv by lia.
  replace (i <? 8) with true by (symmetry; apply Z.ltb_lt; lia).
  rewrite orb_true_r. reflexivity.
Qed.

Lemma field_after_write (n reg l v : Z) (w : world) :
  0 <= n -> 0 <= l -> l + n <= 8 ->
  fst (RWBits_get n reg l (snd (RWBits_set n reg l v w)))
  = Ok (Z.land v (Z.ones n)).
Proof.
  intros Hn Hl Hw. rewrite RWBits_set_run, RWBits_get_run. cbn [fst snd dev regs].
  rewrite read_reg_insert_eq. f_equal.
  apply field_reads_low_bits; assumption.
Qed.

Lemma bit_after_write (n reg l v i : Z) (w : world) :
  0 <= l -> 0 <= i < 8 ->
  Z.testbit (Z.shiftl v l) i = true ->
  Z.testbit (read_reg (regs (dev (snd (RWBits_set n reg l v w)))) reg) i = true.
Proof.
  intros Hl Hi Hv. rewrite RWBits_set_run. cbn [snd dev regs].
  rewrite read_reg_insert_eq, byte_testbit by lia.
  rewrite (written_byte_spill n l _ v i Hl Hi Hv).
  replace (i <? 8) with true by (symmetry; apply Z.ltb_lt; lia).
  reflexivity.
Qed.

(** C3: the round trip that [iam20380.py] misses.  The literal of the
    range table (lines 41-49) is a string followed by 250 with no comma:
    the file raises [SyntaxError] when it is imported and no setter ever
    runs.  With the comma supplied the string is item 0 of the table: the
    [fs] setter still accepts 2000, but writes its index 4 into the 2-bit
    field; bit 5 of the Gyro-Configuration register is set, the field reads
    0 and the [fs] getter returns the string, not 2000.  Under that reading
    250, 500 and 1000 do come back.  The table of module [Iam] is the
    numbers of the literal. *)
Theorem fs_literal_misses_round_trip (w : world) :
  parse_display IamLiteral._IAM20380_fs_tokens None = Raise SyntaxError
  /\ IamLiteral.import = Raise SyntaxError
  /\ IamLiteral._IAM20380_fs
     = [EString; ENumber (NInt 250); ENumber (NInt 500); ENumber (NInt 1000);
        ENumber (NInt 2000)]
  /\ IamLiteral.fs_setter 2000 w = Iam._fs_sel_set 4 w
  /\ fst (IamLiteral.fs_setter 2000 w) = Ok tt
  /\ Z.testbit (read_reg (regs (dev (snd (IamLiteral.fs_setter 2000 w))))
                         _IAM20380_GYRO_CONFIG_REG) 5 = true
  /\ fst (Iam._fs_sel (snd (IamLiteral.fs_setter 2000 w))) = Ok 0
  /\ fst (IamLiteral.fs (snd (IamLiteral.fs_setter 2000 w))) = Ok EString
  /\ (forall v, In v [250; 500; 1000] ->
        fst (IamLiteral.fs (snd (IamLiteral.fs_setter v w)))
        = Ok (ENumber (NInt v)))
  /\ Iam._IAM20380_fs = ints_of IamLiteral._IAM20380_fs_tokens.
Proof.
  assert (Hset : IamLiteral.fs_setter 2000 w = Iam._fs_sel_set 4 w)
    by reflexivity.
  assert (Hfield : fst (Iam._fs_sel (snd (Iam._fs_sel_set 4 w))) = Ok 0).
  { unfold Iam._fs_sel, Iam._fs_sel_set.
    rewrite field_after_write by lia. reflexivity. }
  do 5 (split; [reflexivity |]).
  split.
  { rewrite Hset. unfold Iam._fs_sel_set.
    apply bit_after_write; [lia | lia | reflexivity]. }
  split; [rewrite Hset; exact Hfield |].
  split.
  { rewrite Hset. unfold IamLiteral.fs.
    rewrite fst_bind, Hfield. reflexivity. }
  split; [| reflexivity].
  intros v Hv. simpl in Hv.
  assert (Hi : exists i, 0 <= i < 4
                         /\ IamLiteral.fs_setter v w = Iam._fs_sel_set i w
                         /\ py_getitem IamLiteral._IAM20380_fs i
                            = Some (ENumber (NInt v))).
  { destruct Hv as [<- | [<- | [<- | []]]];
      [exists 1 | exists 2 | exists 3];
      (split; [lia | split; reflexivity]). }
  destruct Hi as [i [Hi [-> Hget]]].
  unfold IamLiteral.fs. rewrite fst_bind.
  unfold Iam._fs_sel, Iam._fs_sel_set.
  rewrite RWBits_roundtrip by (change (2 ^ 2) with 4; lia).
  rewrite Hget. reflexivity.
Qed.

Lemma fs_literal_misses_round_trip_witness :
  fst (IamLiteral.fs (snd (IamLiteral.fs_setter 1000 w_burst)))
  = Ok (ENumber (NInt 1000)).
Proof.
  apply (proj1 (proj2 (proj2 (proj2 (proj2 (proj2 (proj2 (proj2 (proj2
           (fs_literal_misses_round_trip w_burst)))))))))).
  simpl. tauto.
Defined.

(** C4: the round trip and the code that [iam20380.py] misses.  The
    literal of the averaging table (lines 51-63) is a string followed by 1
    with no comma: the file raises [SyntaxError] when it is imported.  With
    the comma supplied the string is item 0, so the index of every legal
    count v is log2 v + 1, not log2 v.  The [avgs] setter accepts 128 and
    writes its index 8 into the 3-bit field: bit 7 of the
    Low-Power-Mode-Config register, the gyro-cycle bit, is set, the field
    reads 0 and the [avgs] getter returns the string, not 128.  The table
    of module [Iam] is the numbers of the literal. *)
Theorem avgs_literal_misses_round_trip (w : world) :
  parse_display IamLiteral._IAM20380_avgs_tokens None = Raise SyntaxError
  /\ IamLiteral._IAM20380_avgs
     = [EString; ENumber (NInt 1); ENumber (NInt 2); ENumber (NInt 4);
        ENumber (NInt 8); ENumber (NInt 16); ENumber (NInt 32);
        ENumber (NInt 64); ENumber (NInt 128)]
  /\ IamLiteral.avgs_setter 128 w = Iam._gavg_cfg_set 8 w
  /\ Z.log2 128 = 7
  /\ fst (IamLiteral.avgs_setter 128 w) = Ok tt
  /\ Z.testbit (read_reg (regs (dev (snd (IamLiteral.avgs_setter 128 w))))
                         _IAM20380_LP_MODE_CFG_REG) 7 = true
  /\ fst (Iam._gavg_cfg (snd (IamLiteral.avgs_setter 128 w))) = Ok 0
  /\ fst (IamLiteral.avgs (snd (IamLiteral.avgs_setter 128 w))) = Ok EString
  /\ (forall v, In v [1; 2; 4; 8; 16; 32; 64; 128] ->
        entry_index v IamLiteral._IAM20380_avgs = Some (Z.log2 v + 1)
        /\ IamLiteral.avgs_setter v w = Iam._gavg_cfg_set (Z.log2 v + 1) w)
  /\ Iam._IAM20380_avgs = ints_of IamLiteral._IAM20380_avgs_tokens.
Proof.
  assert (Hset : IamLiteral.avgs_setter 128 w = Iam._gavg_cfg_set 8 w)
    by reflexivity.
  assert (Hfield : fst (Iam._gavg_cfg (snd (Iam._gavg_cfg_set 8 w))) = Ok 0).
  { unfold Iam._gavg_cfg, Iam._gavg_cfg_set.
    rewrite field_after_write by lia. reflexivity. }
  do 5 (split; [reflexivity |]).
  split.
  { rewrite Hset. unfold Iam._gavg_cfg_set.
    apply bit_after_write; [lia | lia | reflexivity]. }
  split; [rewrite Hset; exact Hfield |].
  split.
  { rewrite Hset. unfold IamLiteral.avgs.
    rewrite fst_bind, Hfield. reflexivity. }
  split; [| reflexivity].
  intros v Hv. simpl in Hv.
  destruct Hv as [<- | [<- | [<- | [<- | [<- | [<- | [<- | [<- | []]]]]]]]];
    split; reflexivity.
Qed.

Lemma avgs_literal_misses_round_trip_witness :
  entry_index 1 IamLiteral._IAM20380_avgs = Some (Z.log2 1 + 1)
  /\ IamLiteral.avgs_setter 1 w_burst
     = Iam._gavg_cfg_set (Z.log2 1 + 1) w_burst.
Proof.
  apply (proj1 (proj2 (proj2 (proj2 (proj2 (proj2 (proj2 (proj2 (proj2
           (avgs_literal_misses_round_trip w_burst)))))))))).
  simpl. tauto.
Defined.

(** ** The averaging field and the cycle bit share a register *)

Lemma land_one_bit (r k : Z) :
  0 <= k ->
  Z.land r (Z.shiftl 1 k) = if Z.testbit r k then 2 ^ k else 0.
Proof.
  intros Hk. rewrite Z.shiftl_1_l. apply Z.bits_inj'. intros i Hi.
  rewrite Z.land_spec, Z.pow2_bits_eqb by assumption.
  destruct (Z.eqb_spec k i) as [-> | Hne].
  - destruct (Z.testbit r i); simpl.
    + rewrite Z.pow2_bits_true by assumption. reflexivity.
    + rewrite Z.bits_0. reflexivity.
  - rewrite andb_false_r.
    destruct (Z.testbit r k).
    + rewrite Z.pow2_bits_false by assumption. reflexivity.
    + rewrite Z.bits_0. reflexivity.
Qed.

Lemma RWBit_get_testbit (reg k : Z) (w : world) :
  0 <= k ->
  fst (RWBit_get reg k w) = Ok (Z.testbit (read_reg (regs (dev w)) reg) k).
Proof.
  intros Hk. unfold RWBit_get, bind. simpl. f_equal.
  rewrite land_one_bit by assumption.
  destruct (Z.testbit (read_reg (regs (dev w)) reg) k); simpl.
  - assert (0 < 2 ^ k) by (apply Z.pow_pos_nonneg; lia).
    destruct (Z.eqb_spec (2 ^ k) 0); [lia | reflexivity].
  - reflexivity.
Qed.

(** C8: for every prior byte of the Low-Power-Mode-Config register (0x1E)
    and every 3-bit code, writing the averaging field is one read of the
    register followed by one write of it, and bit 7 of the byte written
    (the gyro-cycle-mode bit) is bit 7 of the byte read; the [_gyro_cycle]
    getter returns after the write what it returned before it.  The
    descriptor is the same in both files. *)
Theorem gavg_cfg_write_keeps_gyro_cycle (w : world) (code : Z) :
  0 <= code < 8 ->
  exists b,
    SierraLobo._gavg_cfg_set code w =
      (Ok tt,
       World (Device (<[_IAM20380_LP_MODE_CFG_REG := b]> (regs (dev w)))
                     ((log (dev w)
                       ++ [WriteThenRead _IAM20380_LP_MODE_CFG_REG 1])
                      ++ [Write _IAM20380_LP_MODE_CFG_REG [b]]))
             (self w))
    /\ Z.testbit b 7
       = Z.testbit (read_reg (regs (dev w)) _IAM20380_LP_MODE_CFG_REG) 7
    /\ fst (SierraLobo._gyro_cycle (snd (SierraLobo._gavg_cfg_set code w)))
       = fst (SierraLobo._gyro_cycle w)
    /\ Iam._gavg_cfg_set = SierraLobo._gavg_cfg_set.
Proof.
  intros Hcode.
  set (old := read_reg (regs (dev w)) _IAM20380_LP_MODE_CFG_REG).
  assert (Hbit : Z.testbit (written_byte 3 4 old code) 7 = Z.testbit old 7).
  { unfold written_byte.
    apply written_keeps_bit; try (change (2 ^ 3) with 8); lia. }
  exists (written_byte 3 4 old code).
  split; [| split; [exact Hbit | split; [| reflexivity]]].
  - unfold SierraLobo._gavg_cfg_set. rewrite RWBits_set_run. reflexivity.
  - unfold SierraLobo._gyro_cycle, SierraLobo._gavg_cfg_set.
    rewrite !RWBit_get_testbit by lia.
    rewrite RWBits_set_run. cbn [snd dev regs].
    rewrite read_reg_insert_eq. fold old.
    unfold written_byte at 1. rewrite byte_idem.
    fold (written_byte 3 4 old code). rewrite Hbit. reflexivity.
Qed.

Lemma gavg_cfg_write_keeps_gyro_cycle_witness :
  exists b,
    SierraLobo._gavg_cfg_set 3 w_burst =
      (Ok tt,
       World (Device (<[_IAM20380_LP_MODE_CFG_REG := b]> (regs (dev w_burst)))
                     ((log (dev w_burst)
                       ++ [WriteThenRead _IAM20380_LP_MODE_CFG_REG 1])
                      ++ [Write _IAM20380_LP_MODE_CFG_REG [b]]))
             (self w_burst))
    /\ Z.testbit b 7
       = Z.testbit (read_reg (regs (dev w_burst)) _IAM20380_LP_MODE_CFG_REG) 7
    /\ fst (SierraLobo._gyro_cycle (snd (SierraLobo._gavg_cfg_set 3 w_burst)))
       = fst (SierraLobo._gyro_cycle w_burst)
    /\ Iam._gavg_cfg_set = SierraLobo._gavg_cfg_set.
Proof.
  apply (gavg_cfg_write_keeps_gyro_cycle w_burst 3). lia.
Defined.

(** ** Sample-rate divider, reset and construction in [iam20380.py] *)

(** C5: the [smplrt_div] setter does the opposite of the claim.  For 255
    and for 0 it raises [ValueError]; for 256 and for -1 it returns
    normally; in no case is anything written to the bus. *)
Theorem smplrt_div_setter_inverted (w : world) :
  Iam.smplrt_div_setter 255 w = (Raise ValueError, w)
  /\ Iam.smplrt_div_setter 0 w = (Raise ValueError, w)
  /\ Iam.smplrt_div_setter 256 w = (Ok tt, w)
  /\ Iam.smplrt_div_setter (-1) w = (Ok tt, w).
Proof. repeat split. Qed.

Lemma smplrt_div_setter_in_range (w : world) (v : Z) :
  0 <= v <= 255 -> Iam.smplrt_div_setter v w = (Raise ValueError, w).
Proof.
  intros [Hlo Hhi]. unfold Iam.smplrt_div_setter.
  apply Z.leb_le in Hlo. apply Z.leb_le in Hhi.
  rewrite Hlo, Hhi. reflexivity.
Qed.

(** C9: in [iam20380.py], [reset] raises [ValueError] on every world: its
    first six statements succeed and the seventh, [self.smplrt_div = 255],
    raises, as the [smplrt_div] setter does for every value in 0..255.
    [__init__] therefore never returns: it raises [RuntimeError] at the
    chip-identity check or, when the identity matches, the [ValueError] of
    [reset]. *)
Theorem reset_always_raises (w : world) :
  (exists w1,
     (Iam._reset_set true ;;; time_sleep ;;; Iam._pwr_mgmt_1_set 0x01 ;;;
      Iam._fchoice_b_set 0x00 ;;; Iam.fs_setter 250 ;;; Iam.dlpf_setter 6) w
     = (Ok tt, w1)
     /\ Iam.smplrt_div_setter 255 w1 = (Raise ValueError, w1)
     /\ Iam.reset w = (Raise ValueError, w1))
  /\ (forall v, 0 <= v <= 255 ->
                Iam.smplrt_div_setter v w = (Raise ValueError, w))
  /\ (exists e, fst (Iam.__init__ w) = Raise e)
  /\ (read_reg (regs (dev w)) _IAM20380_WHO_AM_I_REG = Iam._IAM20380_WHO_AM_I ->
      fst (Iam.__init__ w) = Raise ValueError).
Proof.
  split; [| split; [| split]].
  - exists (snd (Iam.dlpf_setter 6 (snd (Iam.fs_setter 250 (snd (
      Iam._fchoice_b_set 0x00 (snd (Iam._pwr_mgmt_1_set 0x01 (snd (
      Iam._reset_set true w)))))))))).
    split; [reflexivity | split; reflexivity].
  - intros v Hv. apply smplrt_div_setter_in_range. exact Hv.
  - unfold Iam.__init__. rewrite fst_bind.
    unfold Iam._chip_id. rewrite UnaryStruct_get_run. cbn [fst snd].
    destruct (negb _).
    + exists RuntimeError. reflexivity.
    + exists ValueError. reflexivity.
  - intros Hid. unfold Iam.__init__. rewrite fst_bind.
    unfold Iam._chip_id. rewrite UnaryStruct_get_run. cbn [fst snd].
    rewrite Hid. reflexivity.
Qed.

Lemma reset_always_raises_witness :
  Iam.smplrt_div_setter 255 w_b5 = (Raise ValueError, w_b5)
  /\ fst (Iam.__init__ w_b5) = Raise ValueError.
Proof.
  split.
  - apply (proj1 (proj2 (reset_always_raises w_b5)) 255). lia.
  - apply (proj2 (proj2 (proj2 (reset_always_raises w_b5)))). reflexivity.
Defined.

(** ** Construction in [sierralobo_iam20380.py] *)

(** C10: in [sierralobo_iam20380.py], [reset] succeeds, the identity byte
    never equals the tuple, so the [raise] statement is reached for every
    identity byte; building its message formats the tuple with [#x], and
    that raises the format error before any [RuntimeError] exists.
    Construction fails on every world, and never with [RuntimeError]. *)
Theorem sierralobo_init_always_raises (addr : Z) (w : world) :
  (exists w1, SierraLobo.reset w = (Ok tt, w1))
  /\ (forall id, py_ne (PInt id) SierraLobo._WHO_AM_I = true)
  /\ fst (SierraLobo.__init__ addr w) = Raise FormatError
  /\ fst (SierraLobo.__init__ addr w) <> Raise RuntimeError.
Proof.
  split; [| split; [| split]].
  - exists (snd (SierraLobo.reset w)). reflexivity.
  - intros id. reflexivity.
  - reflexivity.
  - discriminate.
Qed.

(** C1: construction on a chip that answers 0xB5, 0xFD or 0x00.
    [iam20380.py] raises the [ValueError] of [reset] for 0xB5 and rejects
    0xFD like 0x00 with [RuntimeError]; [sierralobo_iam20380.py] raises the
    format error for all three.  None of the six runs yields a handle, and
    the run of [iam20380.py] on 0xB5 never writes the divider register. *)
Theorem construction_on_accepted_identity :
  fst (Iam.__init__ w_b5) = Raise ValueError
  /\ fst (Iam.__init__ w_fd) = Raise RuntimeError
  /\ fst (Iam.__init__ w_00) = Raise RuntimeError
  /\ fst (SierraLobo.__init__ SierraLobo._DEFAULT_ADDR w_b5) = Raise FormatError
  /\ fst (SierraLobo.__init__ SierraLobo._DEFAULT_ADDR w_fd) = Raise FormatError
  /\ fst (SierraLobo.__init__ SierraLobo._DEFAULT_ADDR w_00) = Raise FormatError
  /\ existsb (fun t => match t with
                       | Write reg _ => reg =? _IAM20380_SMPLRT_DIV_REG
                       | WriteThenRead _ _ => false
                       end)
             (log (dev (snd (Iam.__init__ w_b5)))) = false.
Proof. repeat split. Qed.

(** ** Output data rate *)

(** C6, as stated, fails: with the divider register at 0 the [odr] getter
    raises the division fault itself, [ZeroDivisionError], which is not the
    InvalidState of the specification. *)
Lemma odr_zero_divider_faults :
  read_reg (regs (dev w_burst)) _IAM20380_SMPLRT_DIV_REG = 0
  /\ fst (Iam.odr w_burst) = Raise ZeroDivisionError
  /\ kind_of ZeroDivisionError <> Some InvalidState.
Proof. split; [reflexivity | split; [reflexivity | discriminate]]. Qed.

(** C6, amended: the [odr] getter returns 1000 divided by the byte of the
    sample-rate-divider register when that byte is not 0; when it is 0 the
    division is not guarded and raises [ZeroDivisionError]. *)
Theorem odr_divides_or_faults (w : world) :
  (read_reg (regs (dev w)) _IAM20380_SMPLRT_DIV_REG <> 0 ->
   fst (Iam.odr w)
   = Ok (PrimFloat.div
           (float_of_Z 1000)
           (float_of_Z (read_reg (regs (dev w)) _IAM20380_SMPLRT_DIV_REG))))
  /\
  (read_reg (regs (dev w)) _IAM20380_SMPLRT_DIV_REG = 0 ->
   fst (Iam.odr w) = Raise ZeroDivisionError).
Proof.
  unfold Iam.odr, Iam._smplrt_div. rewrite fst_bind, UnaryStruct_get_run.
  cbn [fst snd lift]. unfold py_truediv, num_is_zero.
  split; intros Hd.
  - apply Z.eqb_neq in Hd. rewrite Hd. reflexivity.
  - rewrite Hd. reflexivity.
Qed.

Lemma odr_divides_or_faults_witness :
  fst (Iam.odr (World (chip [(0x19, 0xFF)]) with_buffer))
  = Ok (PrimFloat.div (float_of_Z 1000) (float_of_Z 255))
  /\ fst (Iam.odr w_burst) = Raise ZeroDivisionError.
Proof.
  split.
  - apply (proj1 (odr_divides_or_faults (World (chip [(0x19, 0xFF)]) with_buffer))).
    vm_compute. discriminate.
  - apply (proj2 (odr_divides_or_faults w_burst)). reflexivity.
Defined.

(** ** Temperature *)

(** C7, as stated, fails: the transaction [temperature] issues is not a
    2-byte read of the temperature register; it fills the 6-byte buffer. *)
Lemma temperature_read_is_not_two_bytes :
  log (dev (snd (Iam.temperature w_burst)))
  <> log (dev w_burst) ++ [WriteThenRead _IAM20380_TEMP_OUT_H_REG 2]
  /\ log (dev (snd (Iam.temperature w_burst)))
     = log (dev w_burst) ++ [WriteThenRead _IAM20380_TEMP_OUT_H_REG 6].
Proof. split; [discriminate | reflexivity]. Qed.

(** C7, amended: on an object whose [_buffer] is the 6-byte buffer,
    [temperature] issues one burst read of six bytes starting at the
    temperature-high register (0x41), combines the first two bytes
    big-endian into an unsigned 16-bit value raw, and returns
    (raw / 326.8) + 25 as a float; the registers are left as they were.
    Under the same condition both files compute the same value. *)
Theorem temperature_value (w : world) (b : list Z) :
  _buffer (self w) = Some b -> length b = 6%nat ->
  exists w',
    Iam.temperature w
    = (Ok (PrimFloat.add
             (PrimFloat.div
                (float_of_Z
                   (be16 (read_reg (regs (dev w)) _IAM20380_TEMP_OUT_H_REG)
                         (read_reg (regs (dev w)) (_IAM20380_TEMP_OUT_H_REG + 1))))
                326.8)
             25),
       w')
    /\ log (dev w') = log (dev w) ++ [WriteThenRead _IAM20380_TEMP_OUT_H_REG 6]
    /\ regs (dev w') = regs (dev w)
    /\ 0 <= be16 (read_reg (regs (dev w)) _IAM20380_TEMP_OUT_H_REG)
                 (read_reg (regs (dev w)) (_IAM20380_TEMP_OUT_H_REG + 1))
       < 65536
    /\ SierraLobo.temperature w = Iam.temperature w.
Proof.
  intros Hbuf Hlen.
  destruct w as [d [buf rng]]. simpl in Hbuf. subst buf.
  destruct b as [| b0 [| b1 [| b2 [| b3 [| b4 [| b5 [| b6 t]]]]]]];
    try discriminate Hlen.
  exists (snd (Iam.temperature (World d (Obj (Some [b0; b1; b2; b3; b4; b5]) rng)))).
  split; [reflexivity | split; [reflexivity | split; [reflexivity | split]]].
  - apply be16_bytes; apply byte_range.
  - set (w := World d (Obj (Some [b0; b1; b2; b3; b4; b5]) rng)).
    set (raw := be16 (read_reg (regs d) _IAM20380_TEMP_OUT_H_REG)
                     (read_reg (regs d) (_IAM20380_TEMP_OUT_H_REG + 1))).
    change (SierraLobo.temperature w)
      with (Ok (PrimFloat.add
                  (PrimFloat.div
                     (float_of_Z (raw - SierraLobo._IAM20380_TEMP_OFFS)) 326.8)
                  25),
            snd (Iam.temperature w)).
    unfold SierraLobo._IAM20380_TEMP_OFFS. rewrite Z.sub_0_r. reflexivity.
Qed.

Lemma temperature_value_witness :
  exists w',
    Iam.temperature w_burst
    = (Ok (PrimFloat.add
             (PrimFloat.div
                (float_of_Z
                   (be16 (read_reg (regs (dev w_burst)) _IAM20380_TEMP_OUT_H_REG)
                         (read_reg (regs (dev w_burst)) (_IAM20380_TEMP_OUT_H_REG + 1))))
                326.8)
             25),
       w')
    /\ log (dev w') = log (dev w_burst) ++ [WriteThenRead _IAM20380_TEMP_OUT_H_REG 6]
    /\ regs (dev w') = regs (dev w_burst)
    /\ 0 <= be16 (read_reg (regs (dev w_burst)) _IAM20380_TEMP_OUT_H_REG)
                 (read_reg (regs (dev w_burst)) (_IAM20380_TEMP_OUT_H_REG + 1))
       < 65536
    /\ SierraLobo.temperature w_burst = Iam.temperature w_burst.
Proof.
  apply (temperature_value w_burst (repeat 0 6)); reflexivity.
Defined.

(** ** Rotation *)

(** C2: the sign step and the scaling on the burst
    [0x80,0x00, 0x00,0x64, 0x7F,0xFF] at range 250 dps.

    [sierralobo_iam20380.py] subtracts 0xFFFF where two's complement takes
    0x10000: raw 0x8000 becomes -32767, not -32768; its 250 dps sensitivity
    is 313, so raw 100 scales to 100/313; and on an object the class built,
    where [_buffer] was never assigned, [rotation] raises [AttributeError].

    [iam20380.py] subtracts 0x8000 from every axis instead (raw 100 becomes
    -32668, and -32668/131 is negative), and its [rotation] has no [return]:
    the result is [None]. *)
Theorem rotation_sign_step :
  SierraLobo.signed16 0x8000 = -32767
  /\ SierraLobo.signed16 0x7FFF = 32767
  /\ SierraLobo.signed16 100 = 100
  /\ fst (SierraLobo.raw w_burst_range) = Ok (0x8000, 100, 0x7FFF)
  /\ fst (SierraLobo.rotation w_burst_range)
     = Ok (PrimFloat.div (float_of_Z (-32767)) 313,
           PrimFloat.div 100 313,
           PrimFloat.div 32767 313)
  /\ fst (SierraLobo.rotation (World (dev w_burst) (Obj None (Some 0))))
     = Raise AttributeError
  /\ fst (Iam.sens w_burst) = Ok (NInt 131)
  /\ fst (Iam.rotation_locals w_burst)
     = Ok (PrimFloat.div 0 131,
           PrimFloat.div (float_of_Z (100 - 32768)) 131,
           PrimFloat.div (float_of_Z (0x7FFF - 32768)) 131)
  /\ PrimFloat.ltb (PrimFloat.div (float_of_Z (100 - 32768)) 131) 0 = true
  /\ fst (Iam.rotation w_burst) = Ok None.
Proof. repeat split; vm_compute; reflexivity. Qed.

(** * Further properties of the two drivers *)

(** ** Fields and bits of a register byte *)

Section Fields.

Lemma field_of_testbit (n l r i : Z) :
  0 <= n -> 0 <= l -> 0 <= i ->
  Z.testbit (field_of n l r) i = Z.testbit r (i + l) && (i <? n).
Proof.
  intros Hn Hl Hi. unfold field_of.
  rewrite Z.shiftr_spec, Z.land_spec, bit_mask_testbit by lia.
  replace (l <=? i + l) with true by (symmetry; apply Z.leb_le; lia).
  f_equal. simpl.
  destruct (Z.ltb_spec i n); destruct (Z.ltb_spec (i + l) (l + n)); lia.
Qed.

Lemma field_of_range (n l r : Z) :
  0 <= n -> 0 <= l -> 0 <= field_of n l r < 2 ^ n.
Proof.
  intros Hn Hl.
  assert (H : field_of n l r = Z.land (Z.shiftr r l) (Z.ones n)).
  { apply Z.bits_inj'. intros i Hi.
    rewrite field_of_testbit, Z.land_spec, Z.shiftr_spec by lia.
    f_equal. destruct (Z.ltb_spec i n).
    - rewrite Z.ones_spec_low by lia. reflexivity.
    - rewrite Z.ones_spec_high by lia. reflexivity. }
  rewrite H, Z.land_ones by assumption.
  apply Z.mod_pos_bound. apply Z.pow_pos_nonneg; lia.
Qed.

(** A field write leaves every other field of the byte as it was. *)
Lemma field_of_written_other (n l n' l' old v : Z) :
  0 <= n -> 0 <= l -> 0 <= n' -> 0 <= l' -> l' + n' <= 8 ->
  0 <= v < 2 ^ n ->
  (l' + n' <= l \/ l + n <= l') ->
  field_of n' l' (written_byte n l old v) = field_of n' l' old.
Proof.
  intros Hn Hl Hn' Hl' Hw Hv Hdisj. apply Z.bits_inj'. intros i Hi.
  rewrite !field_of_testbit by lia.
  destruct (Z.ltb_spec i n') as [Hin | Hin]; [| rewrite !andb_false_r; reflexivity].
  f_equal. unfold written_byte. apply written_keeps_bit; lia.
Qed.

Lemma bit_written_testbit (bit old : Z) (value : bool) (i : Z) :
  0 <= bit < 8 -> 0 <= i < 8 ->
  Z.testbit (bit_written bit old value) i
  = if i =? bit then value else Z.testbit old i.
Proof.
  intros Hb Hi. unfold bit_written. rewrite byte_testbit by lia.
  replace (i <? 8) with true by (symmetry; apply Z.ltb_lt; lia).
  rewrite andb_true_r.
  destruct value.
  - rewrite Z.lor_spec, Z.shiftl_1_l, Z.pow2_bits_eqb by lia.
    rewrite (Z.eqb_sym bit i).
    destruct (i =? bit); [apply orb_true_r | apply orb_false_r].
  - rewrite Z.land_spec, Z.lnot_spec, Z.shiftl_1_l, Z.pow2_bits_eqb by lia.
    rewrite (Z.eqb_sym bit i).
    destruct (i =? bit); [apply andb_false_r | apply andb_true_r].
Qed.

Lemma bit_written_range (bit old : Z) (value : bool) :
  0 <= bit_written bit old value < 256.
Proof. unfold bit_written. apply byte_range. Qed.

Lemma written_byte_range (n l old v : Z) : 0 <= written_byte n l old v < 256.
Proof. unfold written_byte. apply byte_range. Qed.

Lemma byte_fixed (x : Z) : 0 <= x < 256 -> Z.land x 0xFF = x.
Proof.
  intros H. change 0xFF with (Z.ones 8). rewrite Z.land_ones by lia.
  apply Z.mod_small. exact H.
Qed.

End Fields.

Lemma RWBit_set_value (reg bit : Z) (v : bool) (w : world) :
  RWBit_set reg bit v w =
  (Ok tt,
   World (Device (<[reg := bit_written bit (read_reg (regs (dev w)) reg) v]>
                    (regs (dev w)))
                 ((log (dev w) ++ [WriteThenRead reg 1])
                  ++ [Write reg [bit_written bit (read_reg (regs (dev w)) reg) v]]))
         (self w)).
Proof. unfold RWBit_set, bind. simpl. destruct v; reflexivity. Qed.

Lemma RWBits_get_field (n reg l : Z) (w : world) :
  fst (RWBits_get n reg l w) = Ok (field_of n l (read_reg (regs (dev w)) reg)).
Proof. reflexivity. Qed.

(** ** [iam20380.py]: the low-pass filter setting *)

(** X1: the [dlpf] setter raises [ValueError] for 7 and for no other value;
    every other int, also above 7 or negative, is written without check.
    For 0..6 the [dlpf] getter then returns the value and the bits of the
    Configuration register above the field keep their value. *)
Theorem dlpf_setter_rejects_only_seven (w : world) (v : Z) :
  (v = 7 -> Iam.dlpf_setter v w = (Raise ValueError, w))
  /\ (v <> 7 -> Iam.dlpf_setter v w = Iam._dlpf_cfg_set v w
                /\ fst (Iam.dlpf_setter v w) = Ok tt)
  /\ (0 <= v <= 6 ->
      fst (Iam.dlpf (snd (Iam.dlpf_setter v w))) = Ok v
      /\ field_of 5 3 (read_reg (regs (dev (snd (Iam.dlpf_setter v w))))
                                _IAM20380_CONFIG_REG)
         = field_of 5 3 (read_reg (regs (dev w)) _IAM20380_CONFIG_REG)).
Proof.
  assert (Hne : v <> 7 -> Iam.dlpf_setter v w = Iam._dlpf_cfg_set v w).
  { intros Hv. unfold Iam.dlpf_setter. change (Z.lor 1 6) with 7.
    destruct (Z.leb_spec v 7); destruct (Z.leb_spec 7 v);
      try reflexivity. lia. }
  split; [| split].
  - intros ->. reflexivity.
  - intros Hv. split; [exact (Hne Hv) |]. rewrite (Hne Hv). reflexivity.
  - intros Hv. rewrite Hne by lia. split.
    + unfold Iam.dlpf, Iam._dlpf_cfg, Iam._dlpf_cfg_set.
      apply RWBits_roundtrip; try (change (2 ^ 3) with 8); lia.
    + unfold Iam._dlpf_cfg_set. rewrite RWBits_set_run. cbn [snd dev regs].
      rewrite read_reg_insert_eq.
      rewrite byte_fixed by apply written_byte_range.
      apply field_of_written_other; try (change (2 ^ 3) with 8); lia.
Qed.

Lemma dlpf_setter_rejects_only_seven_witness :
  Iam.dlpf_setter 7 w_burst = (Raise ValueError, w_burst)
  /\ fst (Iam.dlpf_setter 9 w_burst) = Ok tt
  /\ fst (Iam.dlpf (snd (Iam.dlpf_setter 5 w_burst))) = Ok 5.
Proof.
  split; [| split].
  - apply (proj1 (dlpf_setter_rejects_only_seven w_burst 7)). reflexivity.
  - apply (proj1 (proj2 (dlpf_setter_rejects_only_seven w_burst 9))). lia.
  - apply (proj2 (proj2 (dlpf_setter_rejects_only_seven w_burst 5))). lia.
Defined.

Lemma fst_from_option {A : Type} (e : exn) (o : option A) (w : world) :
  fst (from_option e o w)
  = match o with Some a => Ok a | None => Raise e end.
Proof. destruct o; reflexivity. Qed.

(** ** [iam20380.py]: what a failed construction leaves behind *)

Lemma iam_reset_regs (w : world) :
  regs (dev (snd (Iam.reset w)))
  = let r := regs (dev w) in
    let r1 := <[_IAM20380_PWR_MGMT_1_REG :=
                  bit_written 7 (read_reg r _IAM20380_PWR_MGMT_1_REG) true]> r in
    let r2 := <[_IAM20380_PWR_MGMT_1_REG := 0x01]> r1 in
    let r3 := <[_IAM20380_GYRO_CONFIG_REG :=
                  written_byte 2 0 (read_reg r2 _IAM20380_GYRO_CONFIG_REG) 0]> r2 in
    let r4 := <[_IAM20380_GYRO_CONFIG_REG :=
                  written_byte 2 3 (read_reg r3 _IAM20380_GYRO_CONFIG_REG) 0]> r3 in
    <[_IAM20380_CONFIG_REG :=
        written_byte 3 0 (read_reg r4 _IAM20380_CONFIG_REG) 6]> r4.
Proof. reflexivity. Qed.

Lemma iam_reset_self (w : world) : self (snd (Iam.reset w)) = self w.
Proof. reflexivity. Qed.

Lemma field_of_written_same (n l old v : Z) :
  0 <= n -> 0 <= l -> l + n <= 8 -> 0 <= v < 2 ^ n ->
  field_of n l (written_byte n l old v) = v.
Proof.
  intros Hn Hl Hw Hv.
  rewrite <- (byte_fixed (written_byte n l old v))
    by apply written_byte_range.
  unfold field_of, written_byte. apply field_of_written; assumption.
Qed.

Lemma read_written (r : gmap Z Z) (a n l old v : Z) :
  read_reg (<[a := written_byte n l old v]> r) a = written_byte n l old v.
Proof. rewrite read_reg_insert_eq. apply byte_fixed, written_byte_range. Qed.

(** X9: [reset] of [iam20380.py] raises after it has reconfigured part of
    the chip.  On every world it leaves Power-Management-1 at 0x01 (so the
    sleep bit, bit 6, is clear), the range at 250 dps, fchoice-bypass at 0 and the
    filter code at 6; the divider 255 and the averaging 128 of its last two
    statements are never applied: every register other than 0x6B, 0x1B and
    0x1A reads as before, and so do the [smplrt_div] and [avgs] getters. *)
Theorem iam_reset_partial_configuration (w : world) :
  read_reg (regs (dev (snd (Iam.reset w)))) _IAM20380_PWR_MGMT_1_REG = 0x01
  /\ fst (Iam.fs (snd (Iam.reset w))) = Ok 250
  /\ field_of 2 0 (read_reg (regs (dev (snd (Iam.reset w))))
                            _IAM20380_GYRO_CONFIG_REG) = 0
  /\ fst (Iam.dlpf (snd (Iam.reset w))) = Ok 6
  /\ (forall a, a <> _IAM20380_PWR_MGMT_1_REG ->
                a <> _IAM20380_GYRO_CONFIG_REG ->
                a <> _IAM20380_CONFIG_REG ->
                read_reg (regs (dev (snd (Iam.reset w)))) a
                = read_reg (regs (dev w)) a)
  /\ fst (Iam.smplrt_div (snd (Iam.reset w))) = fst (Iam.smplrt_div w)
  /\ fst (Iam.avgs (snd (Iam.reset w))) = fst (Iam.avgs w)
  /\ self (snd (Iam.reset w)) = self w.
Proof.
  assert (Hpwr : read_reg (regs (dev (snd (Iam.reset w))))
                          _IAM20380_PWR_MGMT_1_REG = 0x01).
  { rewrite iam_reset_regs. cbv zeta.
    rewrite !read_reg_insert_ne by discriminate.
    rewrite read_reg_insert_eq. reflexivity. }
  assert (Hother : forall a, a <> _IAM20380_PWR_MGMT_1_REG ->
                a <> _IAM20380_GYRO_CONFIG_REG ->
                a <> _IAM20380_CONFIG_REG ->
                read_reg (regs (dev (snd (Iam.reset w)))) a
                = read_reg (regs (dev w)) a).
  { intros a H1 H2 H3. rewrite iam_reset_regs. cbv zeta.
    rewrite !read_reg_insert_ne by congruence. reflexivity. }
  split; [exact Hpwr | split; [| split; [| split; [| split;
    [exact Hother | split; [| split; [| reflexivity]]]]]]].
  - unfold Iam.fs. rewrite fst_bind. unfold Iam._fs_sel.
    rewrite RWBits_get_field, iam_reset_regs. cbv zeta.
    rewrite read_reg_insert_ne by discriminate.
    rewrite read_written, field_of_written_same
      by (try (change (2 ^ 2) with 4); lia).
    reflexivity.
  - rewrite iam_reset_regs. cbv zeta.
    rewrite read_reg_insert_ne by discriminate.
    rewrite read_written.
    rewrite field_of_written_other by (try (change (2 ^ 2) with 4); lia).
    rewrite read_written.
    apply field_of_written_same; try (change (2 ^ 2) with 4); lia.
  - unfold Iam.dlpf, Iam._dlpf_cfg.
    rewrite RWBits_get_field, iam_reset_regs. cbv zeta.
    rewrite read_written.
    rewrite field_of_written_same by (try (change (2 ^ 3) with 8); lia).
    reflexivity.
  - unfold Iam.smplrt_div, Iam._smplrt_div.
    rewrite !UnaryStruct_get_run. cbn [fst].
    rewrite Hother by discriminate. reflexivity.
  - unfold Iam.avgs. rewrite !fst_bind. unfold Iam._gavg_cfg.
    rewrite !RWBits_get_field, Hother by discriminate.
    rewrite !fst_from_option. reflexivity.
Qed.

Lemma iam_reset_partial_configuration_witness :
  read_reg (regs (dev (snd (Iam.reset w_burst)))) _IAM20380_SMPLRT_DIV_REG
  = read_reg (regs (dev w_burst)) _IAM20380_SMPLRT_DIV_REG.
Proof.
  apply (proj1 (proj2 (proj2 (proj2 (proj2
           (iam_reset_partial_configuration w_burst))))));
    discriminate.
Defined.

(** X10: when the identity byte is not 0xB5, [__init__] of [iam20380.py]
    raises [RuntimeError] after a single transaction, the read of register
    0x75: no register is written, and [_buffer] is not assigned yet (of the
    attributes of the object only [i2c_device], set on line 77 before the
    check and not part of [obj], is). *)
Theorem iam_init_mismatch_is_read_only (w : world) :
  read_reg (regs (dev w)) _IAM20380_WHO_AM_I_REG <> Iam._IAM20380_WHO_AM_I ->
  Iam.__init__ w
  = (Raise RuntimeError,
     World (Device (regs (dev w))
                   (log (dev w) ++ [WriteThenRead _IAM20380_WHO_AM_I_REG 1]))
           (self w)).
Proof.
  intros Hid. unfold Iam.__init__, Iam._chip_id.
  rewrite (bind_ok _ _ _ _ _ (UnaryStruct_get_run _IAM20380_WHO_AM_I_REG w)).
  apply Z.eqb_neq in Hid. rewrite Hid. reflexivity.
Qed.

Lemma iam_init_mismatch_is_read_only_witness :
  Iam.__init__ w_fd
  = (Raise RuntimeError,
     World (Device (regs (dev w_fd))
                   (log (dev w_fd) ++ [WriteThenRead _IAM20380_WHO_AM_I_REG 1]))
           (self w_fd)).
Proof.
  apply (iam_init_mismatch_is_read_only w_fd). vm_compute. discriminate.
Defined.

(** ** [sierralobo_iam20380.py]: the sign step of [rotation] *)

Lemma testbit_15 (x : Z) :
  0 <= x < 65536 -> Z.testbit x 15 = (32768 <=? x).
Proof.
  intros Hx. rewrite Z.testbit_odd, Z.shiftr_div_pow2 by lia.
  change (2 ^ 15) with 32768.
  destruct (Z.leb_spec 32768 x) as [H | H].
  - replace (x / 32768) with 1; [reflexivity |].
    apply Z.div_unique with (x - 32768); lia.
  - rewrite Z.div_small by lia. reflexivity.
Qed.

Lemma signed16_cases (x : Z) :
  0 <= x < 65536 ->
  SierraLobo.signed16 x = if x <? 32768 then x else x - 65535.
Proof.
  intros Hx. unfold SierraLobo.signed16.
  change 0x8000 with (Z.shiftl 1 15) at 1.
  rewrite land_one_bit, testbit_15 by lia.
  change (2 ^ 15) with 32768.
  destruct (Z.leb_spec 32768 x) as [H | H];
    destruct (Z.ltb_spec x 32768) as [H' | H']; try lia; reflexivity.
Qed.

(** X11: on every 16-bit value the sign step of [rotation] is the identity
    below 0x8000 and subtracts 65535 from 0x8000 on: one more than the
    two's-complement value.  Its results span -32767..32767, -32768 is
    never produced, and raw 0xFFFF (two's-complement -1) decodes to the
    same 0 as raw 0. *)
Theorem signed16_is_twos_complement_plus_one (x : Z) :
  0 <= x < 65536 ->
  SierraLobo.signed16 x = (if x <? 32768 then x else (x - 65536) + 1)
  /\ -32767 <= SierraLobo.signed16 x <= 32767
  /\ SierraLobo.signed16 0xFFFF = SierraLobo.signed16 0.
Proof.
  intros Hx. rewrite (signed16_cases x Hx).
  destruct (Z.ltb_spec x 32768) as [H | H];
    (split; [lia | split; [lia | reflexivity]]).
Qed.

Lemma signed16_is_twos_complement_plus_one_witness :
  SierraLobo.signed16 0x8000 = (if 0x8000 <? 32768 then 0x8000
                                else (0x8000 - 65536) + 1)
  /\ -32767 <= SierraLobo.signed16 0x8000 <= 32767
  /\ SierraLobo.signed16 0xFFFF = SierraLobo.signed16 0.
Proof.
  apply (signed16_is_twos_complement_plus_one 0x8000). lia.
Defined.

(** ** [sierralobo_iam20380.py]: [raw] and [rotation] *)

Lemma raw_run (r : gmap Z Z) (lg : list txn) (b : list Z) (rng : option Z) :
  length b = 6%nat ->
  SierraLobo.raw (World (Device r lg) (Obj (Some b) rng))
  = (Ok (be16 (read_reg r 0x43) (read_reg r 0x44),
         be16 (read_reg r 0x45) (read_reg r 0x46),
         be16 (read_reg r 0x47) (read_reg r 0x48)),
     World (Device r (lg ++ [WriteThenRead _IAM20380_GYRO_XOUT_H_REG 6]))
           (Obj (Some (read_burst r _IAM20380_GYRO_XOUT_H_REG 6)) rng)).
Proof.
  intros Hlen.
  destruct b as [| b0 [| b1 [| b2 [| b3 [| b4 [| b5 [| b6 t]]]]]]];
    try discriminate Hlen.
  reflexivity.
Qed.

(** X12: [raw] on an object whose [_buffer] is the 6-byte buffer is one
    burst read of six bytes at 0x43; it returns, in the order X, Y, Z, the
    big-endian value 256 * high + low of each register pair, each in
    0..65535; no register changes.  On an object without [_buffer] it
    raises [AttributeError] before any bus traffic. *)
Theorem raw_reads_three_words (w : world) :
  (forall b, _buffer (self w) = Some b -> length b = 6%nat ->
     exists x y z,
       SierraLobo.raw w
       = (Ok (x, y, z),
          World (Device (regs (dev w))
                        (log (dev w)
                         ++ [WriteThenRead _IAM20380_GYRO_XOUT_H_REG 6]))
                (Obj (Some (read_burst (regs (dev w))
                                       _IAM20380_GYRO_XOUT_H_REG 6))
                     (_range (self w))))
       /\ x = 256 * read_reg (regs (dev w)) 0x43 + read_reg (regs (dev w)) 0x44
       /\ y = 256 * read_reg (regs (dev w)) 0x45 + read_reg (regs (dev w)) 0x46
       /\ z = 256 * read_reg (regs (dev w)) 0x47 + read_reg (regs (dev w)) 0x48
       /\ 0 <= x < 65536 /\ 0 <= y < 65536 /\ 0 <= z < 65536)
  /\ (_buffer (self w) = None -> SierraLobo.raw w = (Raise AttributeError, w)).
Proof.
  destruct w as [[r lg] [buf rng]]. cbn [dev self regs log _buffer _range].
  split.
  - intros b Hb Hlen. subst buf.
    pose proof (be16_bytes (read_reg r 0x43) (read_reg r 0x44)
                  (byte_range _) (byte_range _)) as [Hx Hxr].
    pose proof (be16_bytes (read_reg r 0x45) (read_reg r 0x46)
                  (byte_range _) (byte_range _)) as [Hy Hyr].
    pose proof (be16_bytes (read_reg r 0x47) (read_reg r 0x48)
                  (byte_range _) (byte_range _)) as [Hz Hzr].
    exists (be16 (read_reg r 0x43) (read_reg r 0x44)),
           (be16 (read_reg r 0x45) (read_reg r 0x46)),
           (be16 (read_reg r 0x47) (read_reg r 0x48)).
    split; [apply raw_run; exact Hlen |].
    repeat split; try assumption; lia.
  - intros ->. reflexivity.
Qed.

Lemma raw_reads_three_words_witness :
  (exists x y z,
     SierraLobo.raw w_triple
     = (Ok (x, y, z),
        World (Device (regs (dev w_triple))
                      (log (dev w_triple)
                       ++ [WriteThenRead _IAM20380_GYRO_XOUT_H_REG 6]))
              (Obj (Some (read_burst (regs (dev w_triple))
                                     _IAM20380_GYRO_XOUT_H_REG 6))
                   (_range (self w_triple))))
     /\ x = 256 * read_reg (regs (dev w_triple)) 0x43
            + read_reg (regs (dev w_triple)) 0x44
     /\ y = 256 * read_reg (regs (dev w_triple)) 0x45
            + read_reg (regs (dev w_triple)) 0x46
     /\ z = 256 * read_reg (regs (dev w_triple)) 0x47
            + read_reg (regs (dev w_triple)) 0x48
     /\ 0 <= x < 65536 /\ 0 <= y < 65536 /\ 0 <= z < 65536)
  /\ SierraLobo.raw w_b5 = (Raise AttributeError, w_b5).
Proof.
  split.
  - apply (proj1 (raw_reads_three_words w_triple) (repeat 0 6)); reflexivity.
  - apply (proj2 (raw_reads_three_words w_b5)). reflexivity.
Defined.

(** X13: [rotation] on an object with the 6-byte buffer and [_range] bound
    to a range code 0..3 returns, for each axis, the sign-stepped raw word
    divided by the constant of that code: 313 for code 0, 65.5, 32.8 and
    16.4 for codes 1, 2, 3.  The constant comes from the attribute alone:
    the Gyro-Configuration register is neither read nor written, the only
    transaction being the burst read. *)
Theorem sierralobo_rotation_scales_by_range (w : world) (b : list Z)
        (c : Z) (s : num) :
  _buffer (self w) = Some b -> length b = 6%nat ->
  _range (self w) = Some c ->
  In (c, s) [(0, NInt 313); (1, NFloat 65.5); (2, NFloat 32.8);
             (3, NFloat 16.4)] ->
  SierraLobo.rotation w
  = (Ok (PrimFloat.div
           (float_of_Z (SierraLobo.signed16
                          (be16 (read_reg (regs (dev w)) 0x43)
                                (read_reg (regs (dev w)) 0x44))))
           (float_of_num s),
         PrimFloat.div
           (float_of_Z (SierraLobo.signed16
                          (be16 (read_reg (regs (dev w)) 0x45)
                                (read_reg (regs (dev w)) 0x46))))
           (float_of_num s),
         PrimFloat.div
           (float_of_Z (SierraLobo.signed16
                          (be16 (read_reg (regs (dev w)) 0x47)
                                (read_reg (regs (dev w)) 0x48))))
           (float_of_num s)),
     World (Device (regs (dev w))
                   (log (dev w) ++ [WriteThenRead _IAM20380_GYRO_XOUT_H_REG 6]))
           (Obj (Some (read_burst (regs (dev w)) _IAM20380_GYRO_XOUT_H_REG 6))
                (Some c))).
Proof.
  intros Hb Hlen Hc Hin.
  destruct w as [[r lg] [buf rng]]. cbn [dev self regs log _buffer _range] in *.
  subst buf rng.
  unfold SierraLobo.rotation.
  rewrite (bind_ok _ _ _ _ _ (raw_run r lg b (Some c) Hlen)).
  simpl in Hin.
  destruct Hin as [E | [E | [E | [E | []]]]]; injection E as <- <-; reflexivity.
Qed.

Lemma sierralobo_rotation_scales_by_range_witness :
  fst (SierraLobo.rotation w_burst_range)
  = Ok (PrimFloat.div (float_of_Z (-32767)) 313,
        PrimFloat.div 100 313,
        PrimFloat.div 32767 313).
Proof.
  rewrite (sierralobo_rotation_scales_by_range w_burst_range (repeat 0 6) 0
             (NInt 313) eq_refl eq_refl eq_refl (or_introl eq_refl)).
  reflexivity.
Defined.

(** ** [sierralobo_iam20380.py]: [reset], [sleep] and a failed construction *)

Lemma field_of_bit_written (n l bit old : Z) (v : bool) :
  0 <= n -> 0 <= l -> l + n <= 8 -> 0 <= bit < 8 ->
  (bit < l \/ l + n <= bit) ->
  field_of n l (bit_written bit old v) = field_of n l old.
Proof.
  intros Hn Hl Hw Hb Hout. apply Z.bits_inj'. intros i Hi.
  rewrite !field_of_testbit by lia.
  destruct (Z.ltb_spec i n) as [Hin | Hin]; [| rewrite !andb_false_r; reflexivity].
  f_equal. rewrite bit_written_testbit by lia.
  destruct (Z.eqb_spec (i + l) bit); [lia | reflexivity].
Qed.

Lemma read_bit_written (r : gmap Z Z) (a bit old : Z) (v : bool) :
  read_reg (<[a := bit_written bit old v]> r) a = bit_written bit old v.
Proof. rewrite read_reg_insert_eq. apply byte_fixed, bit_written_range. Qed.

Lemma sierralobo_reset_regs (w : world) :
  regs (dev (snd (SierraLobo.reset w)))
  = let r := regs (dev w) in
    let r1 := <[_IAM20380_PWR_MGMT_1_REG :=
                  bit_written 7 (read_reg r _IAM20380_PWR_MGMT_1_REG) true]> r in
    let r2 := <[_IAM20380_SMPLRT_DIV_REG := 255]> r1 in
    let r3 := <[_IAM20380_GYRO_CONFIG_REG :=
                  written_byte 2 0 (read_reg r2 _IAM20380_GYRO_CONFIG_REG) 0]> r2 in
    let r4 := <[_IAM20380_LP_MODE_CFG_REG :=
                  written_byte 3 4 (read_reg r3 _IAM20380_LP_MODE_CFG_REG) 3]> r3 in
    <[_IAM20380_LP_MODE_CFG_REG :=
        bit_written 7 (read_reg r4 _IAM20380_LP_MODE_CFG_REG) true]> r4.
Proof. reflexivity. Qed.

(** X14: [reset] of [sierralobo_iam20380.py] succeeds on every world and
    then: the divider register reads 255, the averaging field reads 3 (eight
    averages), the gyro-cycle bit and the reset bit read set, fchoice-bypass
    reads 0, [_range] is the 250 dps code and [sensitivity] returns 313.
    The range is only cached: the full-scale bits [4:3] of the
    Gyro-Configuration register are not written and keep their value, and
    so does the sleep bit. *)
Theorem sierralobo_reset_postconditions (w : world) :
  fst (SierraLobo.reset w) = Ok tt
  /\ fst (SierraLobo._smplrt_div (snd (SierraLobo.reset w))) = Ok 255
  /\ fst (SierraLobo._gavg_cfg (snd (SierraLobo.reset w))) = Ok 3
  /\ fst (SierraLobo._gyro_cycle (snd (SierraLobo.reset w))) = Ok true
  /\ Z.testbit (read_reg (regs (dev (snd (SierraLobo.reset w))))
                         _IAM20380_PWR_MGMT_1_REG) 7 = true
  /\ field_of 2 0 (read_reg (regs (dev (snd (SierraLobo.reset w))))
                            _IAM20380_GYRO_CONFIG_REG) = 0
  /\ _range (self (snd (SierraLobo.reset w))) = Some 0
  /\ fst (SierraLobo.sensitivity (snd (SierraLobo.reset w)))
     = Ok (Some (NInt 313))
  /\ fst (SierraLobo._fs_sel (snd (SierraLobo.reset w)))
     = fst (SierraLobo._fs_sel w)
  /\ fst (SierraLobo.sleep (snd (SierraLobo.reset w)))
     = fst (SierraLobo.sleep w)
  /\ _buffer (self (snd (SierraLobo.reset w))) = _buffer (self w).
Proof.
  split; [reflexivity |].
  split.
  { unfold SierraLobo._smplrt_div. rewrite UnaryStruct_get_run. cbn [fst].
    rewrite sierralobo_reset_regs. cbv zeta.
    rewrite !read_reg_insert_ne by discriminate.
    rewrite read_reg_insert_eq. reflexivity. }
  split.
  { unfold SierraLobo._gavg_cfg.
    rewrite RWBits_get_field, sierralobo_reset_regs. cbv zeta.
    rewrite read_bit_written, field_of_bit_written by lia.
    rewrite read_written.
    rewrite field_of_written_same by (try (change (2 ^ 3) with 8); lia).
    reflexivity. }
  split.
  { unfold SierraLobo._gyro_cycle.
    rewrite RWBit_get_testbit, sierralobo_reset_regs by lia. cbv zeta.
    rewrite read_bit_written, bit_written_testbit by lia. reflexivity. }
  split.
  { rewrite sierralobo_reset_regs. cbv zeta.
    rewrite !read_reg_insert_ne by discriminate.
    rewrite read_bit_written, bit_written_testbit by lia. reflexivity. }
  split.
  { rewrite sierralobo_reset_regs. cbv zeta.
    rewrite !read_reg_insert_ne by discriminate.
    rewrite read_written.
    apply field_of_written_same; try (change (2 ^ 2) with 4); lia. }
  split; [reflexivity |].
  split; [reflexivity |].
  split.
  { unfold SierraLobo._fs_sel.
    rewrite !RWBits_get_field, sierralobo_reset_regs. cbv zeta.
    rewrite !read_reg_insert_ne by discriminate.
    rewrite read_written.
    rewrite field_of_written_other by (try (change (2 ^ 2) with 4); lia).
    rewrite !read_reg_insert_ne by discriminate. reflexivity. }
  split; [| reflexivity].
  unfold SierraLobo.sleep, SierraLobo._sleep.
  rewrite !RWBit_get_testbit, sierralobo_reset_regs by lia. cbv zeta.
  rewrite !read_reg_insert_ne by discriminate.
  rewrite read_bit_written, bit_written_testbit by lia. reflexivity.
Qed.

(** X15: the [sleep] setter then the [sleep] getter returns the value set,
    for both values and every prior byte; the write changes bit 6 of
    Power-Management-1 only: the other seven bits of that register and every
    other register read as before. *)
Theorem sleep_set_then_get (w : world) (val : bool) :
  fst (SierraLobo.sleep_setter val w) = Ok tt
  /\ fst (SierraLobo.sleep (snd (SierraLobo.sleep_setter val w))) = Ok val
  /\ (forall i, 0 <= i < 8 -> i <> 6 ->
        Z.testbit (read_reg (regs (dev (snd (SierraLobo.sleep_setter val w))))
                            _IAM20380_PWR_MGMT_1_REG) i
        = Z.testbit (read_reg (regs (dev w)) _IAM20380_PWR_MGMT_1_REG) i)
  /\ (forall a, a <> _IAM20380_PWR_MGMT_1_REG ->
        read_reg (regs (dev (snd (SierraLobo.sleep_setter val w)))) a
        = read_reg (regs (dev w)) a).
Proof.
  unfold SierraLobo.sleep_setter, SierraLobo._sleep_set,
    SierraLobo.sleep, SierraLobo._sleep.
  rewrite RWBit_set_value. cbn [fst snd dev regs].
  split; [reflexivity | split; [| split]].
  - rewrite RWBit_get_testbit by lia. cbn [dev regs].
    rewrite read_bit_written, bit_written_testbit by lia. reflexivity.
  - intros i Hi H6.
    rewrite read_bit_written, bit_written_testbit by lia.
    destruct (Z.eqb_spec i 6); [lia | reflexivity].
  - intros a Ha. apply read_reg_insert_ne. congruence.
Qed.

Lemma sleep_set_then_get_witness :
  Z.testbit (read_reg (regs (dev (snd (SierraLobo.sleep_setter true w_burst))))
                      _IAM20380_PWR_MGMT_1_REG) 7
  = Z.testbit (read_reg (regs (dev w_burst)) _IAM20380_PWR_MGMT_1_REG) 7
  /\ read_reg (regs (dev (snd (SierraLobo.sleep_setter true w_burst))))
              _IAM20380_LP_MODE_CFG_REG
     = read_reg (regs (dev w_burst)) _IAM20380_LP_MODE_CFG_REG.
Proof.
  split.
  - apply (proj1 (proj2 (proj2 (sleep_set_then_get w_burst true)))); lia.
  - apply (proj2 (proj2 (proj2 (sleep_set_then_get w_burst true)))).
    discriminate.
Defined.

(** X16: the construction that always fails has already reconfigured the
    chip: [__init__] of [sierralobo_iam20380.py] ends in the world [reset]
    produces, followed by two reads of the identity register 0x75 (one for
    the comparison, one for the message), for every address and identity
    byte.  The identity check comes after the writes: the divider register
    reads 255 and [_range] is bound when the exception leaves. *)
Theorem sierralobo_init_writes_before_check (addr : Z) (w : world) :
  snd (SierraLobo.__init__ addr w)
  = World (Device (regs (dev (snd (SierraLobo.reset w))))
                  (log (dev (snd (SierraLobo.reset w)))
                   ++ [WriteThenRead _IAM20380_WHO_AM_I_REG 1;
                       WriteThenRead _IAM20380_WHO_AM_I_REG 1]))
          (self (snd (SierraLobo.reset w)))
  /\ read_reg (regs (dev (snd (SierraLobo.__init__ addr w))))
              _IAM20380_SMPLRT_DIV_REG = 255
  /\ _range (self (snd (SierraLobo.__init__ addr w))) = Some 0.
Proof.
  split; [| split; [| reflexivity]].
  - transitivity
      (World (Device (regs (dev (snd (SierraLobo.reset w))))
                     ((log (dev (snd (SierraLobo.reset w)))
                       ++ [WriteThenRead _IAM20380_WHO_AM_I_REG 1])
                      ++ [WriteThenRead _IAM20380_WHO_AM_I_REG 1]))
             (self (snd (SierraLobo.reset w)))); [reflexivity |].
    rewrite <- app_assoc. reflexivity.
  - change (regs (dev (snd (SierraLobo.__init__ addr w))))
      with (regs (dev (snd (SierraLobo.reset w)))).
    rewrite sierralobo_reset_regs. cbv zeta.
    rewrite !read_reg_insert_ne by discriminate.
    rewrite read_reg_insert_eq. reflexivity.
Qed.

(** [rotation] when an attribute is missing or out of range. *)

(** X17: the error paths of [rotation] in [sierralobo_iam20380.py].
    Without [_buffer] it raises [AttributeError] before any bus traffic.
    With the 6-byte buffer the burst read is issued first; then an unbound
    [_range] raises [AttributeError], and a [_range] outside 0..3 makes
    [sensitivity] return [None] and the division raise [TypeError]. *)
Theorem sierralobo_rotation_errors (w : world) :
  (_buffer (self w) = None ->
   SierraLobo.rotation w = (Raise AttributeError, w))
  /\ (forall b, _buffer (self w) = Some b -> length b = 6%nat ->
        (_range (self w) = None ->
         fst (SierraLobo.rotation w) = Raise AttributeError
         /\ log (dev (snd (SierraLobo.rotation w)))
            = log (dev w) ++ [WriteThenRead _IAM20380_GYRO_XOUT_H_REG 6])
        /\ (forall c, _range (self w) = Some c -> ~ 0 <= c <= 3 ->
              fst (SierraLobo.sensitivity w) = Ok None
              /\ fst (SierraLobo.rotation w) = Raise TypeError)).
Proof.
  destruct w as [[r lg] [buf rng]]. cbn [dev self regs log _buffer _range].
  split.
  - intros ->. reflexivity.
  - intros b -> Hlen. split.
    + intros ->. unfold SierraLobo.rotation.
      rewrite (bind_ok _ _ _ _ _ (raw_run r lg b None Hlen)).
      split; reflexivity.
    + intros c -> Hc.
      assert (Hs : forall w', _range (self w') = Some c ->
                fst (SierraLobo.sensitivity w') = Ok None).
      { intros w' Hr. unfold SierraLobo.sensitivity, get_range, bind.
        rewrite Hr.
        unfold SierraLobo._IAM20380_RANGE_250DPS,
          SierraLobo._IAM20380_RANGE_500DPS,
          SierraLobo._IAM20380_RANGE_1000DPS,
          SierraLobo._IAM20380_RANGE_2000DPS.
        destruct (Z.eqb_spec c 0); [lia |].
        destruct (Z.eqb_spec c 1); [lia |].
        destruct (Z.eqb_spec c 2); [lia |].
        destruct (Z.eqb_spec c 3); [lia |]. reflexivity. }
      split; [apply Hs; reflexivity |].
      unfold SierraLobo.rotation.
      rewrite (bind_ok _ _ _ _ _ (raw_run r lg b (Some c) Hlen)).
      cbv beta iota. rewrite fst_bind, Hs by reflexivity.
      reflexivity.
Qed.

Lemma sierralobo_rotation_errors_witness :
  SierraLobo.rotation w_b5 = (Raise AttributeError, w_b5)
  /\ fst (SierraLobo.rotation w_burst) = Raise AttributeError
  /\ fst (SierraLobo.rotation (World (dev w_burst)
                                     (Obj (Some (repeat 0 6)) (Some 4))))
     = Raise TypeError.
Proof.
  split; [| split].
  - apply (proj1 (sierralobo_rotation_errors w_b5)). reflexivity.
  - apply (proj1 (proj2 (sierralobo_rotation_errors w_burst) (repeat 0 6)
                    eq_refl eq_refl)).
    reflexivity.
  - apply (proj2 (proj2 (sierralobo_rotation_errors
                           (World (dev w_burst)
                                  (Obj (Some (repeat 0 6)) (Some 4))))
                    (repeat 0 6) eq_refl eq_refl) 4 eq_refl).
    lia.
Defined.

(** ** The range of the measurements *)

Lemma forall_words_sound (P : Z -> bool) (k : nat) :
  forall base,
    forall_words k base P = true ->
    forall z, base * 2 ^ Z.of_nat k <= z < (base + 1) * 2 ^ Z.of_nat k ->
              P z = true.
Proof.
  induction k as [| k IH]; intros base H z Hz.
  - simpl in H. change (2 ^ Z.of_nat 0) with 1 in Hz.
    replace z with base by lia. exact H.
  - simpl forall_words in H. apply andb_true_iff in H. destruct H as [H0 H1].
    rewrite Nat2Z.inj_succ, Z.pow_succ_r in Hz by lia.
    assert (Hp : 0 < 2 ^ Z.of_nat k) by (apply Z.pow_pos_nonneg; lia).
    destruct (Z.lt_ge_cases z ((2 * base + 1) * 2 ^ Z.of_nat k)) as [Hlt | Hge].
    + apply (IH (2 * base) H0). nia.
    + apply (IH (2 * base + 1) H1). nia.
Qed.

Lemma forall_words_below (P : Z -> bool) (k : nat) :
  forall_words k 0 P = true ->
  forall z, 0 <= z < 2 ^ Z.of_nat k -> P z = true.
Proof.
  intros H z Hz. apply (forall_words_sound P k 0 H). lia.
Qed.

Lemma temperature_run (r : gmap Z Z) (lg : list txn) (b : list Z)
      (rng : option Z) :
  length b = 6%nat ->
  fst (Iam.temperature (World (Device r lg) (Obj (Some b) rng)))
  = Ok (PrimFloat.add
          (PrimFloat.div
             (float_of_Z (be16 (read_reg r 0x41) (read_reg r 0x42))) 326.8)
          25).
Proof.
  intros Hlen.
  destruct b as [| b0 [| b1 [| b2 [| b3 [| b4 [| b5 [| b6 t]]]]]]];
    try discriminate Hlen.
  reflexivity.
Qed.

(** X18: on every world, with the 6-byte buffer, [temperature] succeeds and
    its value lies between 25 and 225.6: the two bytes are taken as an
    unsigned word, so no reading below 25 degrees can ever be reported.
    Checked on all 65536 words in binary64 arithmetic. *)
Theorem temperature_never_below_25 (w : world) (b : list Z) :
  _buffer (self w) = Some b -> length b = 6%nat ->
  exists t,
    fst (Iam.temperature w) = Ok t
    /\ PrimFloat.leb 25 t = true
    /\ PrimFloat.leb t 225.6 = true.
Proof.
  intros Hb Hlen.
  destruct w as [[r lg] [buf rng]]. cbn [self _buffer] in Hb. subst buf.
  rewrite (temperature_run r lg b rng Hlen).
  eexists. split; [reflexivity |].
  pose proof (be16_bytes (read_reg r 0x41) (read_reg r 0x42)
                (byte_range _) (byte_range _)) as [_ Hraw].
  apply andb_true_iff.
  apply (forall_words_below
           (fun raw =>
              let t := PrimFloat.add
                         (PrimFloat.div (float_of_Z raw) 326.8) 25 in
              PrimFloat.leb 25 t && PrimFloat.leb t 225.6)
           16).
  - vm_compute. reflexivity.
  - exact Hraw.
Qed.

Lemma temperature_never_below_25_witness :
  exists t,
    fst (Iam.temperature w_burst) = Ok t
    /\ PrimFloat.leb 25 t = true
    /\ PrimFloat.leb t 225.6 = true.
Proof.
  apply (temperature_never_below_25 w_burst (repeat 0 6)); reflexivity.
Defined.

(** X19: for every nonzero byte in the divider register the [odr] getter
    succeeds with a rate between 3.92 and 1000; it reads register 0x19 once
    and changes no register.  Checked on all 255 bytes in binary64
    arithmetic. *)
Theorem odr_range (w : world) :
  read_reg (regs (dev w)) _IAM20380_SMPLRT_DIV_REG <> 0 ->
  exists f,
    Iam.odr w
    = (Ok f,
       World (Device (regs (dev w))
                     (log (dev w) ++ [WriteThenRead _IAM20380_SMPLRT_DIV_REG 1]))
             (self w))
    /\ PrimFloat.leb 3.92 f = true
    /\ PrimFloat.leb f 1000 = true.
Proof.
  intros Hd.
  pose proof (byte_range (default 0 (regs (dev w) !! _IAM20380_SMPLRT_DIV_REG)))
    as Hb.
  fold (read_reg (regs (dev w)) _IAM20380_SMPLRT_DIV_REG) in Hb.
  unfold Iam.odr, Iam._smplrt_div.
  rewrite (bind_ok _ _ _ _ _ (UnaryStruct_get_run _IAM20380_SMPLRT_DIV_REG w)).
  unfold lift, py_truediv, num_is_zero.
  apply Z.eqb_neq in Hd. rewrite Hd.
  eexists. split; [reflexivity |].
  apply andb_true_iff.
  apply (forall_words_below
           (fun d =>
              (d =? 0)
              || (let f := PrimFloat.div (float_of_Z 1000) (float_of_Z d) in
                  PrimFloat.leb 3.92 f && PrimFloat.leb f 1000))
           8) in Hb; [| vm_compute; reflexivity].
  rewrite Hd in Hb. exact Hb.
Qed.

Lemma odr_range_witness :
  exists f,
    Iam.odr (World (chip [(0x19, 0xFF)]) with_buffer)
    = (Ok f,
       World (Device (regs (dev (World (chip [(0x19, 0xFF)]) with_buffer)))
                     (log (dev (World (chip [(0x19, 0xFF)]) with_buffer))
                      ++ [WriteThenRead _IAM20380_SMPLRT_DIV_REG 1]))
             (self (World (chip [(0x19, 0xFF)]) with_buffer)))
    /\ PrimFloat.leb 3.92 f = true
    /\ PrimFloat.leb f 1000 = true.
Proof.
  apply (odr_range (World (chip [(0x19, 0xFF)]) with_buffer)).
  vm_compute. discriminate.
Defined.
